(** * Prepaid-card purchase backend: checkout creation and payment confirmation

    A shallow embedding of [src/main.py] and [src/schemas.py].  The HTTP
    handlers become functions in a small state-and-exception monad over a
    [World] that holds the MongoDB collection, the ObjectId generator, the
    clock and the console.  The payment service (the [stripe] package) is an
    oracle passed to the handlers. *)

From Stdlib Require Import ZArith NArith Ascii String DecimalString Lia.
From stdpp Require Import base option list strings gmap fin_maps.

Local Open Scope string_scope.
Local Open Scope Z_scope.

(** ** Python values *)

(** [not s] for an [Optional[str]]: [None] and the empty string are falsy. *)
Definition truthy (s : option string) : bool :=
  match s with
  | Some (String _ _) => true
  | _ => false
  end.

(** [bool(d)] for a dict or [None]. *)
Definition dict_truthy (d : option (gmap string string)) : bool :=
  match d with
  | Some m => negb (bool_decide (m = ∅))
  | None => false
  end.

(** [str(n)] for an int. *)
Definition str_int (n : Z) : string := NilZero.string_of_int (Z.to_int n).

(** The line feed of the f-strings. *)
Definition LF : string := String (ascii_of_nat 10) "".

(** A byte of the form 10xxxxxx continues the UTF-8 code point before it. *)
Definition is_continuation (c : ascii) : bool :=
  let n := N_of_ascii c in ((128 <=? n) && (n <? 192))%N.

(** [s[:n]] for a [str] held as UTF-8: the bytes of its first [n] code
    points. *)
Fixpoint str_prefix (n : nat) (s : string) : string :=
  match s with
  | EmptyString => ""
  | String c s' =>
      if is_continuation c then String c (str_prefix n s')
      else
        match n with
        | O => ""
        | S n' => String c (str_prefix n' s')
        end
  end.

(** [len(s)] for a [str] held as UTF-8: the number of its code points. *)
Fixpoint str_len (s : string) : nat :=
  match s with
  | EmptyString => O
  | String c s' => if is_continuation c then str_len s' else S (str_len s')
  end.

(** [f"{x}"] for an [Optional[str]]. *)
Definition fmt_opt (s : option string) : string :=
  match s with
  | Some v => v
  | None => "None"
  end.

(** Exceptions.  [HTTPException] is FastAPI's; every other exception is kept
    as its class name and its message. *)
Inductive exn : Type :=
  | HTTPException (status_code : Z) (detail : string)
  | PyError (class_name : string) (message : string).

(** [str(e)]; Starlette renders an [HTTPException] as [status: detail]. *)
Definition exn_str (e : exn) : string :=
  match e with
  | HTTPException c d => str_int c +:+ ": " +:+ d
  | PyError _ m => m
  end.

Inductive Result (A : Type) : Type :=
  | Returns (a : A)
  | Raises (e : exn).
Arguments Returns {A} a.
Arguments Raises {A} e.

(** ** bson.ObjectId

    An ObjectId holds the bytes that [bytes.fromhex] reads off its string:
    twelve for a well-formed identifier, fewer when the 24 characters contain
    white space.  It is kept as the number of bytes and their big-endian
    value.  Its string form is two lower-case hexadecimal digits per byte. *)

Definition oid : Type := (nat * N)%type.

(** The twelve-byte identifier with value [n]. *)
Definition oid12 (n : N) : oid := (12%nat, n).

Definition oid_modulus : N := 2 ^ 96.

Definition hex_digit (d : N) : ascii :=
  match d with
  | 0 => "0" | 1 => "1" | 2 => "2" | 3 => "3" | 4 => "4" | 5 => "5"
  | 6 => "6" | 7 => "7" | 8 => "8" | 9 => "9" | 10 => "a" | 11 => "b"
  | 12 => "c" | 13 => "d" | 14 => "e" | _ => "f"
  end%N%char.

Definition hex_value (c : ascii) : option N :=
  let n := N_of_ascii c in
  if ((48 <=? n) && (n <=? 57))%N then Some (n - 48)%N
  else if ((97 <=? n) && (n <=? 102))%N then Some (n - 87)%N
  else if ((65 <=? n) && (n <=? 70))%N then Some (n - 55)%N
  else None.

(** The [k] low hexadecimal digits of [n], most significant first. *)
Fixpoint hex_be (k : nat) (n : N) : string :=
  match k with
  | O => ""
  | S k' => hex_be k' (n / 16)%N +:+ String (hex_digit (n mod 16)%N) ""
  end.

(** ASCII white space, which [bytes.fromhex] skips between bytes: space and
    the characters 9 to 13. *)
Definition is_space (c : ascii) : bool :=
  let n := N_of_ascii c in
  ((n =? 32) || ((9 <=? n) && (n <=? 13)))%N.

(** [bytes.fromhex(s)], continued after [k] bytes of value [acc]: white space
    is skipped before a byte, the two digits of a byte are adjacent. *)
Fixpoint fromhex (s : string) (k : nat) (acc : N) : option oid :=
  match s with
  | EmptyString => Some (k, acc)
  | String c s' =>
      if is_space c then fromhex s' k acc
      else
        match hex_value c, s' with
        | Some hi, String c' s'' =>
            match hex_value c' with
            | Some lo => fromhex s'' (S k) (256 * acc + 16 * hi + lo)%N
            | None => None
            end
        | _, _ => None
        end
  end.

(** [str(ObjectId)] *)
Definition ObjectId_str (o : oid) : string := hex_be (2 * o.1) o.2.

(** [repr(s)] for a [str] of ASCII characters: apostrophes around the text,
    or double quotes when it has an apostrophe and no double quote; the
    backslash, the chosen quote and the control characters are escaped.
    Bytes above 127 are kept (Python escapes the code points that are not
    printable). *)
Definition repr_char (quote c : ascii) : string :=
  let n := N_of_ascii c in
  let backslash := ascii_of_nat 92 in
  if (n =? 92)%N then String backslash (String backslash "")
  else if Ascii.eqb c quote then String backslash (String quote "")
  else if (n =? 9)%N then String backslash "t"
  else if (n =? 10)%N then String backslash "n"
  else if (n =? 13)%N then String backslash "r"
  else if ((n <? 32) || (n =? 127))%N then
    String backslash
      (String "x" (String (hex_digit (n / 16)) (String (hex_digit (n mod 16)) "")))
  else String c "".

Fixpoint repr_body (quote : ascii) (s : string) : string :=
  match s with
  | EmptyString => ""
  | String c s' => repr_char quote c +:+ repr_body quote s'
  end.

Fixpoint contains (c : ascii) (s : string) : bool :=
  match s with
  | EmptyString => false
  | String c' s' => Ascii.eqb c c' || contains c s'
  end.

Definition py_repr (s : string) : string :=
  let apostrophe := ascii_of_nat 39 in
  let double_quote := ascii_of_nat 34 in
  let quote :=
    if contains apostrophe s && negb (contains double_quote s)
    then double_quote else apostrophe in
  String quote (repr_body quote s +:+ String quote "").

(** [bson.errors.InvalidId], with the message of [_raise_invalid_id]. *)
Definition InvalidId (s : string) : exn :=
  PyError "InvalidId"
    (py_repr s +:+ " is not a valid ObjectId, it must be a 12-byte input or a 24-character hex string").

(** [ObjectId(s)] for a string: 24 characters that [bytes.fromhex] accepts. *)
Definition ObjectId (s : string) : Result oid :=
  if bool_decide (String.length s = 24%nat) then
    match fromhex s 0 0 with
    | Some o => Returns o
    | None => Raises (InvalidId s)
    end
  else Raises (InvalidId s).

(** ** schemas.py *)

Inductive PaymentProvider : Type := stripe | mock.
Inductive PaymentStatus : Type := pending | paid | failed.
Inductive DeliveryMethod : Type := recogida | envio.

#[global] Instance PaymentProvider_eq_dec : EqDecision PaymentProvider.
Proof. solve_decision. Defined.
#[global] Instance PaymentStatus_eq_dec : EqDecision PaymentStatus.
Proof. solve_decision. Defined.
#[global] Instance DeliveryMethod_eq_dec : EqDecision DeliveryMethod.
Proof. solve_decision. Defined.

Definition DeliveryMethod_str (d : DeliveryMethod) : string :=
  match d with
  | recogida => "recogida"
  | envio => "envio"
  end.

(** A [datetime], as a number of ticks. *)
Definition datetime : Type := Z.

Record PrepaidCardPurchase : Type := {
  customer_name : string;
  customer_email : string;
  customer_phone : string;
  amount_selected : Z;
  card_price : Z;
  total_price : Z;
  payment_provider : PaymentProvider;
  payment_status : PaymentStatus;
  payment_reference : option string;
  delivery_method : DeliveryMethod;
  created_at : option datetime;
  updated_at : option datetime
}.

(** The three [ge=0] field constraints, checked by the model's constructor. *)
Definition PrepaidCardPurchase_valid (p : PrepaidCardPurchase) : bool :=
  (0 <=? amount_selected p) && (0 <=? card_price p) && (0 <=? total_price p).

Definition ValidationError : exn :=
  PyError "ValidationError" "Input should be greater than or equal to 0".

(** ** The world a request runs in *)

Record World : Type := {
  db : option (gmap oid PrepaidCardPurchase);
  oid_counter : N;
  clock : datetime;
  console : list string
}.

Definition set_db (d : option (gmap oid PrepaidCardPurchase)) (w : World) : World :=
  {| db := d; oid_counter := oid_counter w; clock := clock w; console := console w |}.

(** ** State and exceptions *)

Definition M (A : Type) : Type := World → Result A * World.

Definition ret {A} (a : A) : M A := fun w => (Returns a, w).

Definition raise {A} (e : exn) : M A := fun w => (Raises e, w).

Definition bind {A B} (m : M A) (k : A → M B) : M B :=
  fun w =>
    match m w with
    | (Returns a, w') => k a w'
    | (Raises e, w') => (Raises e, w')
    end.

(** [try: body / except Exception as e: handler] *)
Definition try_except {A} (body : M A) (handler : exn → M A) : M A :=
  fun w =>
    match body w with
    | (Returns a, w') => (Returns a, w')
    | (Raises e, w') => handler e w'
    end.

Definition lift {A} (r : Result A) : M A := fun w => (r, w).

Notation "'do' x <- m ; k" := (bind m (fun x => k))
  (at level 10, x name, m at level 100, k at level 200, only parsing).
Notation "'exec' m ; k" := (bind m (fun _ => k))
  (at level 10, m at level 100, k at level 200, only parsing).

(** [print(...)]: one console line. *)
Definition print (line : string) : M unit :=
  fun w =>
    (Returns tt,
     {| db := db w; oid_counter := oid_counter w; clock := clock w;
        console := console w ++ [line] |}).

(** [datetime.now(timezone.utc)]: reads the clock, which then moves on. *)
Definition datetime_now : M datetime :=
  fun w =>
    (Returns (clock w),
     {| db := db w; oid_counter := oid_counter w; clock := clock w + 1;
        console := console w |}).

(** ** The database

    [db] is [None] when the connection was never initialised.  The collection
    [prepaidcardpurchase] is the only one the handlers touch; it maps the
    [_id] of a document to the document. *)

Definition StorageUnavailable : exn :=
  PyError "Exception" "Database not available. Check DATABASE_URL and DATABASE_NAME environment variables.".

Definition DuplicateKeyError : exn :=
  PyError "DuplicateKeyError" "E11000 duplicate key error collection: prepaidcardpurchase".

(** The identifier the generator hands out when its counter is [c]. *)
Definition next_oid (c : N) : oid := oid12 (c mod oid_modulus).

(** The stored document with a given [_id], if any. *)
Definition find_document (w : World) (o : oid) : option PrepaidCardPurchase :=
  match db w with
  | Some docs => docs !! o
  | None => None
  end.

(** Modelled from the spec: [database.create_document] (the module [database]
    is not among the sources).  It inserts the record as a new document and
    returns its system-generated identifier as a string; it fails when the
    database is uninitialised.  Identifiers come from the generator kept in
    the world, reduced to 12 bytes; the server refuses a document whose
    [_id] is already taken. *)
Definition create_document (collection_name : string) (data : PrepaidCardPurchase) : M string :=
  fun w =>
    match db w with
    | None => (Raises StorageUnavailable, w)
    | Some docs =>
        let o := next_oid (oid_counter w) in
        let w1 := {| db := db w; oid_counter := (oid_counter w + 1)%N;
                     clock := clock w; console := console w |} in
        match docs !! o with
        | Some _ => (Raises DuplicateKeyError, w1)
        | None => (Returns (ObjectId_str o), set_db (Some (<[o := data]> docs)) w1)
        end
    end.

(** [db["prepaidcardpurchase"]]: subscripting [None] raises [TypeError];
    otherwise the result is a handle on the collection. *)
Definition db_getitem (collection_name : string) : M string :=
  fun w =>
    match db w with
    | None => (Raises (PyError "TypeError" "'NoneType' object is not subscriptable"), w)
    | Some _ => (Returns collection_name, w)
    end.

(** The [$set] document of the two updates in [main.py]. *)
Record SetFields : Type := {
  set_payment_status : PaymentStatus;
  set_updated_at : datetime;
  set_payment_reference : string
}.

Definition apply_set (u : SetFields) (p : PrepaidCardPurchase) : PrepaidCardPurchase :=
  {| customer_name := customer_name p;
     customer_email := customer_email p;
     customer_phone := customer_phone p;
     amount_selected := amount_selected p;
     card_price := card_price p;
     total_price := total_price p;
     payment_provider := payment_provider p;
     payment_status := set_payment_status u;
     payment_reference := Some (set_payment_reference u);
     delivery_method := delivery_method p;
     created_at := created_at p;
     updated_at := Some (set_updated_at u) |}.

(** [collection.update_one({"_id": o}, {"$set": u})]: the document with that
    [_id] is updated when there is one; nothing is inserted otherwise. *)
Definition update_one (collection : string) (o : oid) (u : SetFields) : M unit :=
  fun w =>
    match db w with
    | None => (Raises StorageUnavailable, w)
    | Some docs => (Returns tt, set_db (Some (alter (apply_set u) o docs)) w)
    end.

(** ** The payment service

    The [stripe] package is outside the repository: a call either returns a
    session object or raises.  [import stripe] itself can raise when the
    package is not installed. *)

Record LineItem : Type := {
  li_currency : string;
  li_product_name : string;
  li_unit_amount : Z;
  li_quantity : Z
}.

Record SessionCreateParams : Type := {
  sc_api_key : option string;
  sc_mode : string;
  sc_line_items : list LineItem;
  sc_customer_email : string;
  sc_metadata : gmap string string;
  sc_success_url : string;
  sc_cancel_url : string
}.

Record CustomerDetails : Type := { cd_email : option string }.

Record Session : Type := {
  url : option string;
  metadata : option (gmap string string);
  session_payment_status : string;
  customer_details : option CustomerDetails
}.

Record Stripe : Type := {
  Session_create : SessionCreateParams → Result Session;
  Session_retrieve : option string → string → Result Session
}.

(** ** main.py *)

Record Environ : Type := {
  STRIPE_SECRET_KEY : option string;
  FRONTEND_URL : option string
}.

(** [os.getenv(name, default)] *)
Definition getenv_default (v : option string) (default : string) : string :=
  match v with
  | Some s => s
  | None => default
  end.

Record PricingConfig : Type := {
  card_issue_price : Z;
  topup_options : list Z;
  currency : string;
  config_payment_provider : PaymentProvider
}.

Record CreateCheckoutPayload : Type := {
  name : string;
  email : string;
  phone : string;
  amount : Z;
  payload_delivery_method : DeliveryMethod
}.

Record CheckoutResponse : Type := {
  provider : PaymentProvider;
  response_url : option string;
  message : option string;
  purchase_id : option string
}.

Record ConfirmResponse : Type := {
  status : string;
  confirm_purchase_id : string
}.

(** [_send_confirmation_email]: five console lines. *)
Definition _send_confirmation_email (to_email subject content : string) : M unit :=
  exec print "=== EMAIL CONFIRMATION (log) ===";
  exec print ("To: " +:+ to_email);
  exec print ("Subject: " +:+ subject);
  exec print content;
  print "=== END EMAIL ===".

Section Main.

(** The process environment and the outcome of [import stripe]. *)
Variable environ : Environ.
Variable import_stripe : Result Stripe.

Definition PAYMENT_PROVIDER : PaymentProvider :=
  if truthy (STRIPE_SECRET_KEY environ) then stripe else mock.

(** [PricingConfig()]: every field at its default. *)
Definition PricingConfig_default : PricingConfig :=
  {| card_issue_price := 5;
     topup_options := [10; 20; 30; 50];
     currency := "eur";
     config_payment_provider := PAYMENT_PROVIDER |}.

Definition get_config : M PricingConfig := ret PricingConfig_default.

(** [PrepaidCardPurchase(...)]: builds the record and validates it. *)
Definition PrepaidCardPurchase_new (p : PrepaidCardPurchase) : M PrepaidCardPurchase :=
  if PrepaidCardPurchase_valid p then ret p else raise ValidationError.

Definition checkout_line_items (config : PricingConfig) (payload : CreateCheckoutPayload)
  : list LineItem :=
  [ {| li_currency := currency config;
       li_product_name := "Tarjeta Prepago - Emisión";
       li_unit_amount := card_issue_price config * 100;
       li_quantity := 1 |};
    {| li_currency := currency config;
       li_product_name := "Recarga inicial " +:+ str_int (amount payload) +:+ "€";
       li_unit_amount := amount payload * 100;
       li_quantity := 1 |} ].

Definition checkout_session_params (config : PricingConfig) (payload : CreateCheckoutPayload)
    (purchase_id success_url cancel_url : string) : SessionCreateParams :=
  {| sc_api_key := STRIPE_SECRET_KEY environ;
     sc_mode := "payment";
     sc_line_items := checkout_line_items config payload;
     sc_customer_email := email payload;
     sc_metadata :=
       <["purchase_id" := purchase_id]>
       (<["customer_name" := name payload]>
       (<["customer_phone" := phone payload]>
       (<["delivery_method" := DeliveryMethod_str (payload_delivery_method payload)]> ∅)));
     sc_success_url := success_url +:+ "&session_id={CHECKOUT_SESSION_ID}";
     sc_cancel_url := cancel_url |}.

Definition checkout_email_content (payload : CreateCheckoutPayload) (total : Z)
    (purchase_id : string) : string :=
  "Hola " +:+ name payload +:+ "," +:+ LF +:+ LF
  +:+ "Gracias por tu compra. Hemos recibido el pago de " +:+ str_int total +:+ "€. "
  +:+ "Podrás recoger tu tarjeta en el local o solicitar envío según tu selección."
  +:+ LF +:+ LF
  +:+ "ID de compra: " +:+ purchase_id +:+ LF
  +:+ "Método de entrega: " +:+ DeliveryMethod_str (payload_delivery_method payload)
  +:+ LF +:+ LF
  +:+ "Gracias por elegirnos.".

(** [POST /api/prepaid/create-checkout] *)
Definition create_checkout (payload : CreateCheckoutPayload) : M CheckoutResponse :=
  let config := PricingConfig_default in
  if negb (bool_decide (amount payload ∈ topup_options config)) then
    raise (HTTPException 400 "Monto de recarga no válido")
  else
    let total := card_issue_price config + amount payload in
    do created <- datetime_now;
    do updated <- datetime_now;
    do purchase <- PrepaidCardPurchase_new
      {| customer_name := name payload;
         customer_email := email payload;
         customer_phone := phone payload;
         amount_selected := amount payload;
         card_price := card_issue_price config;
         total_price := total;
         payment_provider := PAYMENT_PROVIDER;
         payment_status := pending;
         payment_reference := None;
         delivery_method := payload_delivery_method payload;
         created_at := Some created;
         updated_at := Some updated |};
    do purchase_id <- create_document "prepaidcardpurchase" purchase;
    let success_url :=
      getenv_default (FRONTEND_URL environ) "http://localhost:3000"
      +:+ "/exito?purchase_id=" +:+ purchase_id in
    let cancel_url :=
      getenv_default (FRONTEND_URL environ) "http://localhost:3000"
      +:+ "/cancelado?purchase_id=" +:+ purchase_id in
    (* Stripe mode: [Some r] is the [return] inside the [try] *)
    do returned <-
      (if decide (PAYMENT_PROVIDER = stripe) then
         try_except
           (do stripe_mod <- lift import_stripe;
            do session <- lift (Session_create stripe_mod
              (checkout_session_params config payload purchase_id success_url cancel_url));
            ret (Some {| provider := stripe; response_url := url session;
                         message := None; purchase_id := Some purchase_id |}))
           (fun e => exec print ("Stripe error: " +:+ exn_str e); ret None)
       else ret None);
    match returned with
    | Some r => ret r
    | None =>
        (* Mock mode: mark as paid immediately *)
        do collection <- db_getitem "prepaidcardpurchase";
        do _id <- lift (ObjectId purchase_id);
        do now <- datetime_now;
        exec update_one collection _id
          {| set_payment_status := paid; set_updated_at := now;
             set_payment_reference := "mock-ok" |};
        exec _send_confirmation_email (email payload)
          "Confirmación de compra - Tarjeta Prepago"
          (checkout_email_content payload total purchase_id);
        ret {| provider := mock; response_url := Some success_url;
               message := Some "Pago simulado con éxito";
               purchase_id := Some purchase_id |}
    end.

Definition confirm_email_content (name : option string) (pid : string) : string :=
  "Hola " +:+ fmt_opt name +:+ "," +:+ LF +:+ LF
  +:+ "Hemos recibido tu pago correctamente. "
  +:+ "ID de compra: " +:+ pid +:+ LF
  +:+ "Te enviaremos instrucciones para recoger tu tarjeta en el local o envío."
  +:+ LF +:+ LF +:+ "Gracias.".

(** [GET /api/prepaid/confirm] *)
Definition confirm (session_id purchase_id : option string) : M ConfirmResponse :=
  if decide (PAYMENT_PROVIDER = stripe) then
    if negb (truthy session_id) then
      raise (HTTPException 400 "Falta session_id")
    else
      let sid := default "" session_id in
      try_except
        (do stripe_mod <- lift import_stripe;
         do session <- lift (Session_retrieve stripe_mod (STRIPE_SECRET_KEY environ) sid);
         let pid :=
           if dict_truthy (metadata session)
           then default ∅ (metadata session) !! "purchase_id"
           else purchase_id in
         if bool_decide (session_payment_status session = "paid") && truthy pid then
           let pid_str := default "" pid in
           do collection <- db_getitem "prepaidcardpurchase";
           do _id <- lift (ObjectId pid_str);
           do now <- datetime_now;
           exec update_one collection _id
             {| set_payment_status := paid; set_updated_at := now;
                set_payment_reference := sid |};
           let email :=
             match customer_details session with
             | Some cd => cd_email cd
             | None => None
             end in
           let name :=
             if dict_truthy (metadata session)
             then default ∅ (metadata session) !! "customer_name"
             else Some "Cliente" in
           exec (if truthy email then
                   _send_confirmation_email (default "" email)
                     "Confirmación de compra - Tarjeta Prepago"
                     (confirm_email_content name pid_str)
                 else ret tt);
           ret {| status := "ok"; confirm_purchase_id := pid_str |}
         else
           raise (HTTPException 400 "Pago no confirmado"))
        (fun e => raise (HTTPException 400 ("Error confirmando el pago: " +:+ exn_str e)))
  else
    (* Mock mode just acknowledges *)
    if negb (truthy purchase_id) then
      raise (HTTPException 400 "Falta purchase_id")
    else
      ret {| status := "ok"; confirm_purchase_id := default "" purchase_id |}.

End Main.

(** ** The two halves of [create_checkout]

    The handler up to and including the insert of the record (main.py
    109-125), and the rest of it, run with the identifier the insert
    returned (main.py 127-194). *)



(** ** Requests *)



(** The query parameter [confirm] requires in the active mode. *)
Definition required_parameter (environ : Environ)
    (session_id purchase_id : option string) : option string :=
  match PAYMENT_PROVIDER environ with
  | stripe => session_id
  | mock => purchase_id
  end.

(** The detail of the missing-parameter error in the active mode. *)
Definition MissingParameter_detail (environ : Environ) : string :=
  match PAYMENT_PROVIDER environ with
  | stripe => "Falta session_id"
  | mock => "Falta purchase_id"
  end.

(** A response that is one of the two missing-parameter errors. *)
Definition is_MissingParameter (r : Result ConfirmResponse) : Prop :=
  r = Raises (HTTPException 400 "Falta session_id") ∨
  r = Raises (HTTPException 400 "Falta purchase_id").

(** ** Specification vocabulary *)

(** [wp m w Q]: running [m] from [w] ends in a result and a world that
    satisfy [Q]. *)
Definition wp {A} (m : M A) (w : World) (Q : Result A → World → Prop) : Prop :=
  Q (m w).1 (m w).2.

(** What [create_checkout] can do to the collection: nothing, or insert one
    pending document under the next identifier, possibly followed by one
    update that marks a document paid. *)
Definition checkout_store_effect (w w' : World) : Prop :=
  db w' = db w ∨
  ∃ docs p,
    db w = Some docs ∧ docs !! next_oid (oid_counter w) = None ∧
    (db w' = Some (<[next_oid (oid_counter w) := p]> docs) ∨
     ∃ o u, set_payment_status u = paid ∧
       db w' = Some (alter (apply_set u) o (<[next_oid (oid_counter w) := p]> docs))) ∧
    payment_status p = pending ∧
    total_price p = card_price p + amount_selected p.

(** What [confirm] can do to the collection: nothing, or one update that
    marks a document paid. *)
Definition confirm_store_effect (w w' : World) : Prop :=
  db w' = db w ∨
  ∃ docs o u,
    db w = Some docs ∧ set_payment_status u = paid ∧
    db w' = Some (alter (apply_set u) o docs).

(** ** Example inputs *)

Definition env_mock_ex : Environ :=
  {| STRIPE_SECRET_KEY := None; FRONTEND_URL := None |}.

Definition env_stripe_ex : Environ :=
  {| STRIPE_SECRET_KEY := Some "sk_test_1"; FRONTEND_URL := Some "https://tienda.example" |}.

Definition payload_ex : CreateCheckoutPayload :=
  {| name := "Ana"; email := "ana@example.com"; phone := "600100200";
     amount := 20; payload_delivery_method := recogida |}.

Definition purchase_ex : PrepaidCardPurchase :=
  {| customer_name := "Luis"; customer_email := "luis@example.com";
     customer_phone := "600300400"; amount_selected := 10; card_price := 5;
     total_price := 15; payment_provider := stripe; payment_status := pending;
     payment_reference := None; delivery_method := envio;
     created_at := Some 900; updated_at := Some 900 |}.

Definition world_ex : World :=
  {| db := Some {[ oid12 7 := purchase_ex ]}; oid_counter := 26; clock := 1000;
     console := [] |}.

Definition session_ex (pay_status : string) : Session :=
  {| url := Some "https://checkout.example/cs_test_1"; metadata := None;
     session_payment_status := pay_status; customer_details := None |}.

(** A payment service whose session creation fails and whose sessions
    report the given payment status. *)
Definition stripe_ex (pay_status : string) : Stripe :=
  {| Session_create := λ _, Raises (PyError "APIConnectionError" "Connection refused");
     Session_retrieve := λ _ _, Returns (session_ex pay_status) |}.


(** ** main.py: the root and the diagnostic endpoints *)

Record RootResponse : Type := {
  root_message : string;
  root_payment_provider : PaymentProvider
}.

(** [GET /] *)
Definition read_root (environ : Environ) : M RootResponse :=
  ret {| root_message := "Backend operativo";
         root_payment_provider := PAYMENT_PROVIDER environ |}.

(** The two variables [test_database] reads from the environment. *)
Record DatabaseEnviron : Type := {
  DATABASE_URL : option string;
  DATABASE_NAME : option string
}.

(** What the pymongo database object answers: its [name], when it has this
    attribute, and the outcome of [list_collection_names()]. *)
Record DatabaseObject : Type := {
  db_name : option string;
  list_collection_names : Result (list string)
}.

(** The [response] dict of [test_database]. *)
Record TestResponse : Type := {
  backend : string;
  database : string;
  database_url : option string;
  database_name : option string;
  connection_status : string;
  collections : list string
}.

Definition set_database (v : string) (r : TestResponse) : TestResponse :=
  {| backend := backend r; database := v; database_url := database_url r;
     database_name := database_name r; connection_status := connection_status r;
     collections := collections r |}.

Definition set_database_url (v : option string) (r : TestResponse) : TestResponse :=
  {| backend := backend r; database := database r; database_url := v;
     database_name := database_name r; connection_status := connection_status r;
     collections := collections r |}.

Definition set_database_name (v : option string) (r : TestResponse) : TestResponse :=
  {| backend := backend r; database := database r; database_url := database_url r;
     database_name := v; connection_status := connection_status r;
     collections := collections r |}.

Definition set_connection_status (v : string) (r : TestResponse) : TestResponse :=
  {| backend := backend r; database := database r; database_url := database_url r;
     database_name := database_name r; connection_status := v;
     collections := collections r |}.

Definition set_collections (v : list string) (r : TestResponse) : TestResponse :=
  {| backend := backend r; database := database r; database_url := database_url r;
     database_name := database_name r; connection_status := connection_status r;
     collections := v |}.

(** ["✅ Set" if os.getenv(name) else "❌ Not Set"] *)
Definition set_or_not (v : option string) : string :=
  if truthy v then "✅ Set" else "❌ Not Set".

(** [GET /test].  Nothing in the outer [try] can raise outside the inner
    one, whose handler reports the failure of the listing. *)
Definition test_database (denv : DatabaseEnviron) (dbo : DatabaseObject) : M TestResponse :=
  fun w =>
    let response :=
      {| backend := "✅ Running";
         database := "❌ Not Available";
         database_url := None;
         database_name := None;
         connection_status := "Not Connected";
         collections := [] |} in
    let response :=
      match db w with
      | Some _ =>
          let response := set_database "✅ Available" response in
          let response := set_database_url (Some (set_or_not (DATABASE_URL denv))) response in
          let response :=
            set_database_name
              (Some (match db_name dbo with
                     | Some n => n
                     | None => "✅ Connected"
                     end)) response in
          let response := set_connection_status "Connected" response in
          match list_collection_names dbo with
          | Returns collections =>
              let response := set_collections (take 10 collections) response in
              set_database "✅ Connected & Working" response
          | Raises e =>
              set_database
                ("⚠️ Connected but Error: " +:+ str_prefix 50 (exn_str e)) response
          end
      | None => set_database "⚠️ Available but not initialized" response
      end in
    let response := set_database_url (Some (set_or_not (DATABASE_URL denv))) response in
    let response := set_database_name (Some (set_or_not (DATABASE_NAME denv))) response in
    (Returns response, w).

(** ** More example inputs *)

Definition session_created_ex : Session :=
  {| url := Some "https://checkout.example/cs_test_2"; metadata := None;
     session_payment_status := "unpaid"; customer_details := None |}.


Definition denv_ex : DatabaseEnviron :=
  {| DATABASE_URL := Some "mongodb://localhost:27017"; DATABASE_NAME := None |}.

Definition dbo_ex : DatabaseObject :=
  {| db_name := Some "lavanderia";
     list_collection_names :=
       Returns ["c01"; "c02"; "c03"; "c04"; "c05"; "c06"; "c07"; "c08"; "c09";
                "c10"; "c11"; "c12"] |}.

(** ** Vocabulary for the results of the handlers *)

(** The success and cancel URLs [create_checkout] builds for an identifier. *)
Definition checkout_success_url (environ : Environ) (pid : string) : string :=
  getenv_default (FRONTEND_URL environ) "http://localhost:3000"
  +:+ "/exito?purchase_id=" +:+ pid.

Definition checkout_cancel_url (environ : Environ) (pid : string) : string :=
  getenv_default (FRONTEND_URL environ) "http://localhost:3000"
  +:+ "/cancelado?purchase_id=" +:+ pid.

(** The record [create_checkout] hands to [create_document] when the clock
    reads [t]. *)
Definition pending_purchase (environ : Environ) (payload : CreateCheckoutPayload)
    (t : datetime) : PrepaidCardPurchase :=
  {| customer_name := name payload;
     customer_email := email payload;
     customer_phone := phone payload;
     amount_selected := amount payload;
     card_price := 5;
     total_price := 5 + amount payload;
     payment_provider := PAYMENT_PROVIDER environ;
     payment_status := pending;
     payment_reference := None;
     delivery_method := payload_delivery_method payload;
     created_at := Some t;
     updated_at := Some (t + 1) |}.

(** The console lines of one logged e-mail. *)
Definition confirmation_email_lines (to_email subject content : string) : list string :=
  ["=== EMAIL CONFIRMATION (log) ==="; "To: " +:+ to_email;
   "Subject: " +:+ subject; content; "=== END EMAIL ==="].

Definition email_subject : string := "Confirmación de compra - Tarjeta Prepago".

(** The lines [create_checkout] logs when it marks the purchase paid. *)
Definition checkout_email_lines (payload : CreateCheckoutPayload) (pid : string)
    : list string :=
  confirmation_email_lines (email payload) email_subject
    (checkout_email_content payload (5 + amount payload) pid).

(** [pid], [email] and [name] as [confirm] reads them off a session. *)
Definition confirm_pid (session : Session) (purchase_id : option string) : option string :=
  if dict_truthy (metadata session)
  then default ∅ (metadata session) !! "purchase_id"
  else purchase_id.

Definition confirm_email (session : Session) : option string :=
  match customer_details session with
  | Some cd => cd_email cd
  | None => None
  end.

Definition confirm_name (session : Session) : option string :=
  if dict_truthy (metadata session)
  then default ∅ (metadata session) !! "customer_name"
  else Some "Cliente".

(** The lines [confirm] logs for a paid session. *)
Definition confirm_email_lines (session : Session) (pid : string) : list string :=
  if truthy (confirm_email session) then
    confirmation_email_lines (default "" (confirm_email session)) email_subject
      (confirm_email_content (confirm_name session) pid)
  else [].

(** The amount a list of line items charges, in cents. *)
Definition line_items_total (items : list LineItem) : Z :=
  foldr (λ li acc, li_unit_amount li * li_quantity li + acc) 0 items.

(** The fields an update of [main.py] never writes. *)
Definition same_purchase_data (p q : PrepaidCardPurchase) : Prop :=
  customer_name q = customer_name p ∧ customer_email q = customer_email p ∧
  customer_phone q = customer_phone p ∧ amount_selected q = amount_selected p ∧
  card_price q = card_price p ∧ total_price q = total_price p ∧
  payment_provider q = payment_provider p ∧ delivery_method q = delivery_method p ∧
  created_at q = created_at p.

(** The record after the mock branch of [create_checkout] has marked it
    paid. *)
Definition paid_purchase (environ : Environ) (payload : CreateCheckoutPayload)
    (t : datetime) : PrepaidCardPurchase :=
  {| customer_name := name payload;
     customer_email := email payload;
     customer_phone := phone payload;
     amount_selected := amount payload;
     card_price := 5;
     total_price := 5 + amount payload;
     payment_provider := PAYMENT_PROVIDER environ;
     payment_status := paid;
     payment_reference := Some "mock-ok";
     delivery_method := payload_delivery_method payload;
     created_at := Some t;
     updated_at := Some (t + 2) |}.

(** The answer and the world of a checkout settled by the mock branch, after
    the console lines [logged] of a failed Stripe attempt. *)
Definition mock_checkout_result (environ : Environ) (payload : CreateCheckoutPayload)
    (docs : gmap oid PrepaidCardPurchase) (logged : list string) (w : World)
    : Result CheckoutResponse * World :=
  let pid := ObjectId_str (next_oid (oid_counter w)) in
  (Returns {| provider := mock;
              response_url := Some (checkout_success_url environ pid);
              message := Some "Pago simulado con éxito";
              purchase_id := Some pid |},
   {| db := Some (<[next_oid (oid_counter w) :=
                     paid_purchase environ payload (clock w)]> docs);
      oid_counter := (oid_counter w + 1)%N;
      clock := clock w + 3;
      console := (console w ++ logged) ++ checkout_email_lines payload pid |}).

Definition metadata_ex : gmap string string :=
  {[ "purchase_id" := "000000000000000000000007"; "customer_name" := "Luis" ]}.

Definition paid_session_ex (meta : option (gmap string string)) (mail : option string)
    : Session :=
  {| url := Some "https://checkout.example/cs_test_2";
     metadata := meta;
     session_payment_status := "paid";
     customer_details := Some {| cd_email := mail |} |}.

(** A payment service that creates sessions and, on retrieval, reports a
    paid session carrying the given metadata and customer e-mail. *)
Definition stripe_ok_ex (meta : option (gmap string string)) (mail : option string) : Stripe :=
  {| Session_create := λ _, Returns session_created_ex;
     Session_retrieve := λ _ _, Returns (paid_session_ex meta mail) |}.



(** A database object whose listing fails. *)
Definition dbo_fail_ex : DatabaseObject :=
  {| db_name := Some "lavanderia";
     list_collection_names :=
       Raises (PyError "ServerSelectionTimeoutError"
         "conexión rechazada: no se pudo alcanzar el servidor de base de datos en 30 s") |}.

(** ** ObjectId: the string form parses back *)

Lemma hex_value_digit (d : N) : (d < 16)%N → hex_value (hex_digit d) = Some d.
Proof.
  intros Hd.
  assert (Hcases : In d (map N.of_nat (seq 0 16))).
  { apply in_map_iff. exists (N.to_nat d). split; [lia |]. apply in_seq. lia. }
  simpl in Hcases. intuition (subst; reflexivity).
Qed.

Lemma is_space_hex_digit (d : N) : (d < 16)%N → is_space (hex_digit d) = false.
Proof.
  intros Hd.
  assert (Hcases : In d (map N.of_nat (seq 0 16))).
  { apply in_map_iff. exists (N.to_nat d). split; [lia |]. apply in_seq. lia. }
  simpl in Hcases. intuition (subst; reflexivity).
Qed.

Lemma string_length_app (s t : string) :
  String.length (s +:+ t) = (String.length s + String.length t)%nat.
Proof. induction s as [| c s IH]; simpl; [reflexivity | by rewrite IH]. Qed.

Lemma hex_be_length (k : nat) (n : N) : String.length (hex_be k n) = k.
Proof.
  revert n. induction k as [| k IH]; intros n; simpl; [reflexivity |].
  rewrite string_length_app, IH. simpl. lia.
Qed.

Lemma string_app_cons (c : ascii) (s t : string) :
  String c s +:+ t = String c (s +:+ t).
Proof. reflexivity. Qed.

Lemma string_app_nil_l (s : string) : "" +:+ s = s.
Proof. reflexivity. Qed.

Lemma string_app_assoc (s t u : string) : (s +:+ t) +:+ u = s +:+ (t +:+ u).
Proof.
  induction s as [| c s IH]; [reflexivity |].
  rewrite !string_app_cons. by f_equal.
Qed.

Lemma string_app_nil_r (s : string) : s +:+ "" = s.
Proof.
  induction s as [| c s IH]; [reflexivity |].
  rewrite string_app_cons. by f_equal.
Qed.

Lemma fromhex_hex_be (k : nat) (n : N) (t : string) (c : nat) (acc : N) :
  fromhex (hex_be (2 * k) n +:+ t) c acc =
  fromhex t (c + k) (acc * 256 ^ N.of_nat k + n mod 256 ^ N.of_nat k)%N.
Proof.
  revert n t. induction k as [| k IH]; intros n t.
  - cbn [Nat.mul hex_be String.append N.of_nat]. rewrite N.pow_0_r, N.mod_1_r.
    f_equal; lia.
  - replace (2 * S k)%nat with (S (S (2 * k))) by lia.
    cbn [hex_be]. rewrite !string_app_assoc. rewrite IH.
    repeat rewrite ?string_app_cons, ?string_app_nil_l.
    cbn [fromhex].
    rewrite !is_space_hex_digit, !hex_value_digit by (apply N.mod_lt; lia).
    assert (Hn : (n mod 256 = 16 * ((n / 16) mod 16) + n mod 16)%N).
    { change 256%N with (16 * 16)%N. rewrite (N.Div0.mod_mul_r n 16 16). lia. }
    assert (Hd : (n / 16 / 16 = n / 256)%N).
    { rewrite N.Div0.div_div. reflexivity. }
    assert (Hm : (n mod 256 ^ N.of_nat (S k) =
                  n mod 256 + 256 * ((n / 256) mod 256 ^ N.of_nat k))%N).
    { rewrite Nat2N.inj_succ, N.pow_succ_r'.
      apply (N.Div0.mod_mul_r n 256 (256 ^ N.of_nat k)). }
    rewrite Hd, Hm, Hn, Nat2N.inj_succ, N.pow_succ_r'.
    f_equal; lia.
Qed.

Lemma ObjectId_next_oid (c : N) :
  ObjectId (ObjectId_str (next_oid c)) = Returns (next_oid c).
Proof.
  unfold ObjectId, ObjectId_str, next_oid, oid12. cbn [fst snd].
  rewrite hex_be_length, bool_decide_true by reflexivity.
  pose proof (fromhex_hex_be 12 (c mod oid_modulus) "" 0 0) as H.
  rewrite string_app_nil_r in H. rewrite H. cbn [fromhex Nat.add].
  do 2 f_equal. f_equal.
  change (256 ^ N.of_nat 12)%N with oid_modulus.
  rewrite N.Div0.mod_mod. lia.
Qed.

(** ** Rules for running a handler step by step *)

Lemma wp_bind {A B} (m : M A) (k : A → M B) w Q :
  wp m w (λ r w', match r with
                  | Returns a => wp (k a) w' Q
                  | Raises e => Q (Raises e) w'
                  end) →
  wp (bind m k) w Q.
Proof. unfold wp, bind. by destruct (m w) as [[a | e] w']. Qed.

Lemma wp_try_except {A} (body : M A) (handler : exn → M A) w Q :
  wp body w (λ r w', match r with
                     | Returns a => Q (Returns a) w'
                     | Raises e => wp (handler e) w' Q
                     end) →
  wp (try_except body handler) w Q.
Proof. unfold wp, try_except. by destruct (body w) as [[a | e] w']. Qed.

Lemma wp_ret {A} (a : A) w (Q : Result A → World → Prop) :
  Q (Returns a) w → wp (ret a) w Q.
Proof. done. Qed.

Lemma wp_raise {A} (e : exn) w (Q : Result A → World → Prop) :
  Q (Raises e) w → wp (raise e) w Q.
Proof. done. Qed.

Lemma wp_lift {A} (r : Result A) w (Q : Result A → World → Prop) :
  Q r w → wp (lift r) w Q.
Proof. done. Qed.

Lemma wp_print line w (Q : Result unit → World → Prop) :
  Q (Returns tt)
    {| db := db w; oid_counter := oid_counter w; clock := clock w;
       console := console w ++ [line] |} →
  wp (print line) w Q.
Proof. done. Qed.

Lemma wp_datetime_now w (Q : Result datetime → World → Prop) :
  Q (Returns (clock w))
    {| db := db w; oid_counter := oid_counter w; clock := clock w + 1;
       console := console w |} →
  wp datetime_now w Q.
Proof. done. Qed.

Lemma wp_create_document c data w (Q : Result string → World → Prop) :
  (db w = None → Q (Raises StorageUnavailable) w) →
  (∀ docs r, db w = Some docs → docs !! next_oid (oid_counter w) = Some r →
     Q (Raises DuplicateKeyError)
       {| db := Some docs; oid_counter := (oid_counter w + 1)%N;
          clock := clock w; console := console w |}) →
  (∀ docs, db w = Some docs → docs !! next_oid (oid_counter w) = None →
     Q (Returns (ObjectId_str (next_oid (oid_counter w))))
       {| db := Some (<[next_oid (oid_counter w) := data]> docs);
          oid_counter := (oid_counter w + 1)%N;
          clock := clock w; console := console w |}) →
  wp (create_document c data) w Q.
Proof.
  intros Hnone Hdup Hok. unfold wp, create_document.
  destruct (db w) as [docs |] eqn:Hdb; [| by apply Hnone].
  destruct (docs !! next_oid (oid_counter w)) as [r |] eqn:Hlk; cbn.
  - by eapply Hdup.
  - by apply Hok.
Qed.

Lemma wp_db_getitem c w (Q : Result string → World → Prop) :
  (db w = None →
   Q (Raises (PyError "TypeError" "'NoneType' object is not subscriptable")) w) →
  (∀ docs, db w = Some docs → Q (Returns c) w) →
  wp (db_getitem c) w Q.
Proof.
  intros Hnone Hsome. unfold wp, db_getitem.
  destruct (db w) as [docs |] eqn:Hdb; [by eapply Hsome | by apply Hnone].
Qed.

Lemma wp_update_one c o u w (Q : Result unit → World → Prop) :
  (db w = None → Q (Raises StorageUnavailable) w) →
  (∀ docs, db w = Some docs →
     Q (Returns tt)
       {| db := Some (alter (apply_set u) o docs); oid_counter := oid_counter w;
          clock := clock w; console := console w |}) →
  wp (update_one c o u) w Q.
Proof.
  intros Hnone Hsome. unfold wp, update_one.
  destruct (db w) as [docs |] eqn:Hdb; [by apply Hsome | by apply Hnone].
Qed.

Lemma wp_send_confirmation_email to_email subject content w
    (Q : Result unit → World → Prop) :
  Q (Returns tt)
    {| db := db w; oid_counter := oid_counter w; clock := clock w;
       console := console w ++
         ["=== EMAIL CONFIRMATION (log) ==="; "To: " +:+ to_email;
          "Subject: " +:+ subject; content; "=== END EMAIL ==="] |} →
  wp (_send_confirmation_email to_email subject content) w Q.
Proof.
  intros HQ. unfold wp, _send_confirmation_email, bind, print. cbn.
  by rewrite <- !app_assoc.
Qed.

Ltac wp_step :=
  lazymatch goal with
  | |- wp (bind _ _) _ _ => apply wp_bind
  | |- wp (try_except _ _) _ _ => apply wp_try_except
  | |- wp (ret _) _ _ => apply wp_ret
  | |- wp (raise _) _ _ => apply wp_raise
  | |- wp (lift (ObjectId (ObjectId_str (next_oid _)))) _ _ =>
      rewrite ObjectId_next_oid; apply wp_lift
  | |- wp (lift _) _ _ => apply wp_lift
  | |- wp (print _) _ _ => apply wp_print
  | |- wp datetime_now _ _ => apply wp_datetime_now
  | |- wp (_send_confirmation_email _ _ _) _ _ => apply wp_send_confirmation_email
  | |- wp (db_getitem _) _ _ => apply wp_db_getitem; [intros ? | intros ? ?]
  | |- wp (update_one _ _ _) _ _ => apply wp_update_one; [intros ? | intros ? ?]
  | |- wp (create_document _ _) _ _ =>
      apply wp_create_document; [intros ? | intros ? ? ? ? | intros ? ? ?]
  | |- wp (PrepaidCardPurchase_new _) _ _ => unfold PrepaidCardPurchase_new
  | |- wp (if ?b then _ else _) _ _ => destruct b eqn:?
  | |- wp (match ?x with _ => _ end) _ _ => destruct x eqn:?
  | |- match ?x with _ => _ end => destruct x eqn:?
  end; cbn beta iota zeta; cbn [db oid_counter clock console] in *.

(** ** Effect of the handlers on the collection *)

Lemma create_checkout_store_effect environ imp payload w :
  checkout_store_effect w (create_checkout environ imp payload w).2.
Proof.
  change (wp (create_checkout environ imp payload) w (λ _ w', checkout_store_effect w w')).
  unfold create_checkout. cbn zeta.
  repeat wp_step.
  all: simplify_eq; unfold checkout_store_effect; cbn [db].
  all: try (left; congruence).
  all: right; eexists _, _; split; [eassumption |]; split; [eassumption |].
  all: split;
    [ first [ left; reflexivity
            | right;
              eexists _, {| set_payment_status := paid; set_updated_at := _;
                            set_payment_reference := _ |};
              split; reflexivity ]
    | split; reflexivity ].
Qed.

Lemma confirm_store_effect_holds environ imp session_id purchase_id w :
  confirm_store_effect w (confirm environ imp session_id purchase_id w).2.
Proof.
  change (wp (confirm environ imp session_id purchase_id) w
            (λ _ w', confirm_store_effect w w')).
  unfold confirm. cbn zeta.
  repeat wp_step.
  all: simplify_eq; unfold confirm_store_effect; cbn [db].
  all: try (left; congruence).
  all: right;
    eexists _, _, {| set_payment_status := paid; set_updated_at := _;
                     set_payment_reference := _ |};
    split; [eassumption |]; split; reflexivity.
Qed.


Lemma apply_set_prices u p :
  total_price (apply_set u p) = total_price p ∧
  card_price (apply_set u p) = card_price p ∧
  amount_selected (apply_set u p) = amount_selected p.
Proof. done. Qed.

Lemma purchase_valid environ payload (c u : option datetime) :
  amount payload ∈ topup_options (PricingConfig_default environ) →
  PrepaidCardPurchase_valid
    {| customer_name := name payload;
       customer_email := email payload;
       customer_phone := phone payload;
       amount_selected := amount payload;
       card_price := card_issue_price (PricingConfig_default environ);
       total_price := card_issue_price (PricingConfig_default environ) + amount payload;
       payment_provider := PAYMENT_PROVIDER environ;
       payment_status := pending;
       payment_reference := None;
       delivery_method := payload_delivery_method payload;
       created_at := c;
       updated_at := u |} = true.
Proof.
  intros Ha. unfold PrepaidCardPurchase_valid. cbn in *.
  assert (0 ≤ amount payload) by (set_unfold; lia).
  repeat (apply andb_true_intro; split); try reflexivity; apply Z.leb_le; lia.
Qed.

Lemma truthy_Some (s : string) : s ≠ "" → truthy (Some s) = true.
Proof. by destruct s. Qed.

Lemma confirmation_error_not_missing e :
  ¬ is_MissingParameter
      (Raises (HTTPException 400 ("Error confirmando el pago: " +:+ exn_str e))).
Proof. intros [H | H]; cbn in H; discriminate H. Qed.

Ltac amount_cases :=
  try match goal with
  | H : negb (bool_decide _) = true |- _ =>
      rewrite bool_decide_true in H by assumption; discriminate H
  | H : PrepaidCardPurchase_valid _ = false |- _ =>
      rewrite purchase_valid in H by assumption; discriminate H
  end.

(** ** Checkout creation *)

(** C5.  For an amount outside the top-up options, [create_checkout]
    raises [HTTPException 400] with the invalid-amount detail and leaves the
    world, hence the collection, unchanged. *)
Theorem create_checkout_invalid_amount environ imp payload w :
  amount payload ∉ topup_options (PricingConfig_default environ) →
  create_checkout environ imp payload w =
    (Raises (HTTPException 400 "Monto de recarga no válido"), w).
Proof.
  intros Ha. unfold create_checkout. cbn zeta.
  by rewrite bool_decide_false.
Qed.

Lemma create_checkout_invalid_amount_witness :
  create_checkout env_mock_ex (Returns (stripe_ex "paid"))
    {| name := "Ana"; email := "ana@example.com"; phone := "600100200";
       amount := 15; payload_delivery_method := recogida |} world_ex =
    (Raises (HTTPException 400 "Monto de recarga no válido"), world_ex).
Proof.
  apply create_checkout_invalid_amount. cbn. set_unfold. lia.
Defined.

(** C6.  Every record that [create_checkout] adds to the collection has
    [total_price = card_price + amount_selected]. *)
Theorem create_checkout_total_price environ imp payload w o rec :
  find_document w o = None →
  find_document (create_checkout environ imp payload w).2 o = Some rec →
  total_price rec = card_price rec + amount_selected rec.
Proof.
  intros Hnew Hrec.
  destruct (create_checkout_store_effect environ imp payload w)
    as [Hsame | (docs & p & Hdb & Hfree & Hdb' & _ & Hp)].
  - unfold find_document in *. rewrite Hsame in Hrec. congruence.
  - unfold find_document in *. rewrite Hdb in Hnew.
    destruct Hdb' as [Hdb' | (o' & u & _ & Hdb')]; rewrite Hdb' in Hrec.
    + rewrite lookup_insert in Hrec. case_decide; simplify_eq. done.
    + rewrite lookup_alter, !lookup_insert in Hrec.
      repeat case_decide; simplify_eq/=;
        try (rewrite Hnew in Hrec; simplify_eq/=); done.
Qed.

Lemma create_checkout_total_price_witness :
  ∃ rec,
    find_document (create_checkout env_mock_ex (Returns (stripe_ex "paid")) payload_ex world_ex).2
      (oid12 26) = Some rec ∧
    total_price rec = card_price rec + amount_selected rec.
Proof.
  eexists. split; [reflexivity |].
  apply (create_checkout_total_price env_mock_ex (Returns (stripe_ex "paid"))
           payload_ex world_ex (oid12 26)); reflexivity.
Defined.

(** C3.  In mock mode, for an amount among the top-up options,
    [create_checkout] returns as soon as the database accepts the insert, and
    whenever it returns the record it created is stored with
    [payment_status = paid] and [payment_reference = "mock-ok"]. *)
Theorem create_checkout_mock_paid environ imp payload w :
  PAYMENT_PROVIDER environ = mock →
  amount payload ∈ topup_options (PricingConfig_default environ) →
  (∀ docs, db w = Some docs → docs !! next_oid (oid_counter w) = None →
     ∃ resp w', create_checkout environ imp payload w = (Returns resp, w')) ∧
  (∀ resp w', create_checkout environ imp payload w = (Returns resp, w') →
     provider resp = mock ∧
     purchase_id resp = Some (ObjectId_str (next_oid (oid_counter w))) ∧
     find_document w (next_oid (oid_counter w)) = None ∧
     ∃ rec, find_document w' (next_oid (oid_counter w)) = Some rec ∧
       payment_status rec = paid ∧ payment_reference rec = Some "mock-ok").
Proof.
  intros Hmode Ha.
  assert (Hwp : wp (create_checkout environ imp payload) w (λ r w',
    (∀ docs, db w = Some docs → docs !! next_oid (oid_counter w) = None →
       ∃ resp, r = Returns resp) ∧
    (∀ resp, r = Returns resp →
       provider resp = mock ∧
       purchase_id resp = Some (ObjectId_str (next_oid (oid_counter w))) ∧
       find_document w (next_oid (oid_counter w)) = None ∧
       ∃ rec, find_document w' (next_oid (oid_counter w)) = Some rec ∧
         payment_status rec = paid ∧ payment_reference rec = Some "mock-ok"))).
  { unfold create_checkout. cbn zeta.
    repeat wp_step; amount_cases; try congruence; simplify_eq.
    all: split; [intros; simplify_eq; eauto | intros; simplify_eq].
    all: unfold find_document; cbn [db provider purchase_id].
    all: split_and!; [done | done | by destruct (db w); simplify_eq |].
    all: rewrite lookup_alter_eq, lookup_insert_eq; cbn; eauto. }
  unfold wp in Hwp. destruct Hwp as [Hret Hpost]. split.
  - intros docs Hdb Hfree. destruct (Hret docs Hdb Hfree) as [resp Hr].
    exists resp, (create_checkout environ imp payload w).2.
    rewrite <- Hr. apply surjective_pairing.
  - intros resp w' Heq. rewrite Heq in Hpost. by apply Hpost.
Qed.

Lemma create_checkout_mock_paid_witness :
  ∃ rec,
    find_document (create_checkout env_mock_ex (Returns (stripe_ex "paid")) payload_ex world_ex).2
      (next_oid (oid_counter world_ex)) = Some rec ∧
    payment_status rec = paid ∧ payment_reference rec = Some "mock-ok".
Proof.
  destruct (create_checkout_mock_paid env_mock_ex (Returns (stripe_ex "paid"))
              payload_ex world_ex) as [_ Hpost].
  - reflexivity.
  - cbn. set_unfold. lia.
  - destruct (Hpost _ _ (surjective_pairing _)) as (_ & _ & _ & Hrec).
    exact Hrec.
Defined.

(** C1.  In stripe mode, when the session-creation call raises, whatever
    the exception, [create_checkout] still answers: as soon as the database
    accepts the insert it returns a response, and every response it returns
    has provider [mock] while the stored record, whose [payment_provider] is
    still [stripe], is marked [paid] with reference ["mock-ok"]. *)
Theorem create_checkout_stripe_error_falls_back environ st payload w :
  PAYMENT_PROVIDER environ = stripe →
  amount payload ∈ topup_options (PricingConfig_default environ) →
  (∀ params, ∃ e, Session_create st params = Raises e) →
  (∀ docs, db w = Some docs → docs !! next_oid (oid_counter w) = None →
     ∃ resp w', create_checkout environ (Returns st) payload w = (Returns resp, w')) ∧
  (∀ resp w', create_checkout environ (Returns st) payload w = (Returns resp, w') →
     provider resp = mock ∧
     purchase_id resp = Some (ObjectId_str (next_oid (oid_counter w))) ∧
     find_document w (next_oid (oid_counter w)) = None ∧
     ∃ rec, find_document w' (next_oid (oid_counter w)) = Some rec ∧
       payment_provider rec = stripe ∧
       payment_status rec = paid ∧ payment_reference rec = Some "mock-ok").
Proof.
  intros Hmode Ha Hraise.
  assert (Hwp : wp (create_checkout environ (Returns st) payload) w (λ r w',
    (∀ docs, db w = Some docs → docs !! next_oid (oid_counter w) = None →
       ∃ resp, r = Returns resp) ∧
    (∀ resp, r = Returns resp →
       provider resp = mock ∧
       purchase_id resp = Some (ObjectId_str (next_oid (oid_counter w))) ∧
       find_document w (next_oid (oid_counter w)) = None ∧
       ∃ rec, find_document w' (next_oid (oid_counter w)) = Some rec ∧
         payment_provider rec = stripe ∧
         payment_status rec = paid ∧ payment_reference rec = Some "mock-ok"))).
  { unfold create_checkout. cbn zeta.
    repeat wp_step; amount_cases; try congruence; simplify_eq.
    all: try match goal with
         | He : Session_create _ ?p = Returns _ |- _ =>
             destruct (Hraise p) as [? Hr]; rewrite Hr in He; discriminate He
         end.
    all: split; [intros; simplify_eq; eauto | intros; simplify_eq].
    all: unfold find_document; cbn [db provider purchase_id].
    all: split_and!; [done | done | by destruct (db w); simplify_eq |].
    all: rewrite lookup_alter_eq, lookup_insert_eq; cbn; eauto. }
  unfold wp in Hwp. destruct Hwp as [Hret Hpost]. split.
  - intros docs Hdb Hfree. destruct (Hret docs Hdb Hfree) as [resp Hr].
    exists resp, (create_checkout environ (Returns st) payload w).2.
    rewrite <- Hr. apply surjective_pairing.
  - intros resp w' Heq. rewrite Heq in Hpost. by apply Hpost.
Qed.

Lemma create_checkout_stripe_error_falls_back_witness :
  ∃ resp w',
    create_checkout env_stripe_ex (Returns (stripe_ex "unpaid")) payload_ex world_ex
      = (Returns resp, w') ∧
    provider resp = mock ∧
    ∃ rec, find_document w' (next_oid (oid_counter world_ex)) = Some rec ∧
      payment_provider rec = stripe ∧
      payment_status rec = paid ∧ payment_reference rec = Some "mock-ok".
Proof.
  destruct (create_checkout_stripe_error_falls_back env_stripe_ex (stripe_ex "unpaid")
              payload_ex world_ex) as [Hret Hpost].
  - reflexivity.
  - cbn. set_unfold. lia.
  - intros params. eexists. reflexivity.
  - destruct (Hret _ eq_refl) as (resp & w' & Heq); [reflexivity |].
    exists resp, w'. split; [exact Heq |].
    destruct (Hpost _ _ Heq) as (Hp & _ & _ & Hrec). by split.
Defined.

(** ** Confirmation *)

(** C2.  In stripe mode, with a retrieved session that reports ["unpaid"],
    [confirm] leaves the world untouched and fails with status 400, but the
    detail it sends is the generic confirmation error wrapped around the
    intended one, not ["Pago no confirmado"]: the [raise] sits inside the
    [try] whose handler catches every exception. *)
Theorem confirm_unpaid_session_detail :
  confirm env_stripe_ex (Returns (stripe_ex "unpaid")) (Some "cs_test_1") None world_ex
    = (Raises (HTTPException 400 "Error confirmando el pago: 400: Pago no confirmado"),
       world_ex).
Proof. reflexivity. Qed.

(** C4.  In mock mode, [confirm] with any non-empty [purchase_id] returns
    [{status: "ok", purchase_id}] with that very string and leaves the world
    as it was; the answer is the same for every world, so the collection is
    neither read nor written. *)
Theorem confirm_mock_echo environ imp session_id p w :
  PAYMENT_PROVIDER environ = mock →
  p ≠ "" →
  confirm environ imp session_id (Some p) w =
    (Returns {| status := "ok"; confirm_purchase_id := p |}, w).
Proof.
  intros Hmode Hp. unfold confirm.
  destruct (decide _) as [e |]; [congruence |].
  by destruct p.
Qed.

Lemma confirm_mock_echo_witness :
  confirm env_mock_ex (Returns (stripe_ex "unpaid")) None (Some "never-created") world_ex =
    (Returns {| status := "ok"; confirm_purchase_id := "never-created" |}, world_ex).
Proof. apply confirm_mock_echo; [reflexivity | discriminate]. Defined.

(** C8.  [confirm] answers with a missing-parameter error exactly when the
    parameter its mode requires ([session_id] in stripe mode, [purchase_id]
    in mock mode) is missing in the sense of the source's test [not x], that
    is [None] or the empty string; the error is then [HTTPException 400] with
    the detail that names this parameter, and the world is unchanged. *)
Theorem confirm_missing_parameter environ imp session_id purchase_id w :
  (is_MissingParameter (confirm environ imp session_id purchase_id w).1 ↔
   truthy (required_parameter environ session_id purchase_id) = false) ∧
  (truthy (required_parameter environ session_id purchase_id) = false →
   confirm environ imp session_id purchase_id w =
     (Raises (HTTPException 400 (MissingParameter_detail environ)), w)).
Proof.
  assert (Hmiss : truthy (required_parameter environ session_id purchase_id) = false →
    confirm environ imp session_id purchase_id w =
      (Raises (HTTPException 400 (MissingParameter_detail environ)), w)).
  { unfold required_parameter, MissingParameter_detail, confirm.
    destruct (decide _) as [e | n].
    - rewrite e. by intros ->.
    - destruct (PAYMENT_PROVIDER environ); [done |]. by intros ->. }
  split; [split |]; [| | exact Hmiss].
  - intros Hm. destruct (truthy (required_parameter environ session_id purchase_id))
      eqn:Hreq; [| done].
    exfalso. revert Hm.
    change (wp (confirm environ imp session_id purchase_id) w
              (λ r _, ¬ is_MissingParameter r)).
    unfold required_parameter, confirm in *. cbn zeta.
    destruct (decide _) as [e | n].
    + rewrite e in Hreq. rewrite Hreq. cbn [negb].
      repeat wp_step.
      all: first [apply confirmation_error_not_missing | by intros [? | ?]].
    + destruct (PAYMENT_PROVIDER environ); [done |]. rewrite Hreq. cbn [negb].
      wp_step. by intros [? | ?].
  - intros Hreq. rewrite (Hmiss Hreq). unfold is_MissingParameter, MissingParameter_detail.
    cbn. destruct (PAYMENT_PROVIDER environ); eauto.
Qed.

Lemma confirm_missing_parameter_witness :
  confirm env_mock_ex (Returns (stripe_ex "paid")) (Some "cs_test_1") None world_ex =
    (Raises (HTTPException 400 "Falta purchase_id"), world_ex).
Proof.
  apply (confirm_missing_parameter env_mock_ex (Returns (stripe_ex "paid"))
           (Some "cs_test_1") None world_ex).
  reflexivity.
Defined.

(** ** Configuration and the life of a record *)

(** C9.  [get_config] never fails and never changes the world: it returns
    issuance price 5, top-up options [10, 20, 30, 50], currency ["eur"] and
    the process-wide payment provider. *)
Theorem get_config_defaults environ w :
  get_config environ w =
    (Returns {| card_issue_price := 5; topup_options := [10; 20; 30; 50];
                currency := "eur";
                config_payment_provider := PAYMENT_PROVIDER environ |}, w).
Proof. reflexivity. Qed.

(** ** The logged e-mail *)

(** X1.  [_send_confirmation_email] always succeeds, leaves the
    collection, the identifier generator and the clock alone, and appends
    exactly five console lines: the opening banner, the recipient, the
    subject, the content and the closing banner. *)
Theorem send_confirmation_email_appends to_email subject content w :
  _send_confirmation_email to_email subject content w =
    (Returns tt,
     {| db := db w; oid_counter := oid_counter w; clock := clock w;
        console := console w ++ confirmation_email_lines to_email subject content |}).
Proof.
  unfold _send_confirmation_email, bind, print, confirmation_email_lines. cbn.
  by rewrite <- !app_assoc.
Qed.

(** X2.  [GET /] and [GET /api/config] always answer without changing the
    world and report the same payment provider, which is [stripe] exactly
    when [STRIPE_SECRET_KEY] is set to a non-empty string (an empty key
    selects [mock]). *)
Theorem root_and_config_agree environ w :
  ∃ r c,
    read_root environ w = (Returns r, w) ∧
    get_config environ w = (Returns c, w) ∧
    root_message r = "Backend operativo" ∧
    root_payment_provider r = config_payment_provider c ∧
    (root_payment_provider r = stripe ↔
     ∃ a k, STRIPE_SECRET_KEY environ = Some (String a k)).
Proof.
  eexists _, _. split_and!; try reflexivity. cbn. unfold PAYMENT_PROVIDER.
  destruct (STRIPE_SECRET_KEY environ) as [[| a k] |]; cbn; split;
    try done; try (intros (? & ? & ?); done). eauto.
Qed.

(** ** Checkout creation: closed forms *)

Lemma create_checkout_stripe_session_run environ st payload sess docs w :
  PAYMENT_PROVIDER environ = stripe →
  amount payload ∈ topup_options (PricingConfig_default environ) →
  db w = Some docs →
  docs !! next_oid (oid_counter w) = None →
  let pid := ObjectId_str (next_oid (oid_counter w)) in
  Session_create st
    (checkout_session_params environ (PricingConfig_default environ) payload pid
       (checkout_success_url environ pid) (checkout_cancel_url environ pid))
    = Returns sess →
  create_checkout environ (Returns st) payload w =
    (Returns {| provider := stripe; response_url := url sess; message := None;
                purchase_id := Some pid |},
     {| db := Some (<[next_oid (oid_counter w) :=
                       pending_purchase environ payload (clock w)]> docs);
        oid_counter := (oid_counter w + 1)%N;
        clock := clock w + 2;
        console := console w |}).
Proof.
  intros Hmode Ha Hdb Hfree pid Hsess.
  assert (Hwp : wp (create_checkout environ (Returns st) payload) w (λ r w',
    (r, w') =
    (Returns {| provider := stripe; response_url := url sess; message := None;
                purchase_id := Some pid |},
     {| db := Some (<[next_oid (oid_counter w) :=
                       pending_purchase environ payload (clock w)]> docs);
        oid_counter := (oid_counter w + 1)%N;
        clock := clock w + 2;
        console := console w |}))).
  { unfold create_checkout. cbn zeta.
    repeat wp_step; amount_cases; try congruence; simplify_eq.
    all: unfold checkout_success_url, checkout_cancel_url, pid in Hsess.
    all: try (rewrite Hsess in *; simplify_eq).
    unfold pending_purchase. f_equal. f_equal. lia. }
  unfold wp in Hwp. rewrite <- Hwp. apply surjective_pairing.
Qed.

(** X3.  In stripe mode, when the session is created, [create_checkout]
    answers with provider [stripe], the session's URL, no message and the
    new identifier; the record is stored [pending] without a payment
    reference, and nothing is logged. *)
Theorem create_checkout_stripe_session environ st payload sess docs w :
  PAYMENT_PROVIDER environ = stripe →
  amount payload ∈ topup_options (PricingConfig_default environ) →
  db w = Some docs →
  docs !! next_oid (oid_counter w) = None →
  let pid := ObjectId_str (next_oid (oid_counter w)) in
  Session_create st
    (checkout_session_params environ (PricingConfig_default environ) payload pid
       (checkout_success_url environ pid) (checkout_cancel_url environ pid))
    = Returns sess →
  create_checkout environ (Returns st) payload w =
    (Returns {| provider := stripe; response_url := url sess; message := None;
                purchase_id := Some pid |},
     {| db := Some (<[next_oid (oid_counter w) :=
                       pending_purchase environ payload (clock w)]> docs);
        oid_counter := (oid_counter w + 1)%N;
        clock := clock w + 2;
        console := console w |}).
Proof. apply create_checkout_stripe_session_run. Qed.


Ltac clock_norm :=
  repeat match goal with
  | |- context [?c + 1 + 1] => replace (c + 1 + 1) with (c + 2) by lia
  | |- context [?c + 2 + 1] => replace (c + 2 + 1) with (c + 3) by lia
  end.

Lemma create_checkout_mock_result_run environ imp payload docs w :
  PAYMENT_PROVIDER environ = mock →
  amount payload ∈ topup_options (PricingConfig_default environ) →
  db w = Some docs →
  docs !! next_oid (oid_counter w) = None →
  create_checkout environ imp payload w =
    mock_checkout_result environ payload docs [] w.
Proof.
  intros Hmode Ha Hdb Hfree.
  assert (Hwp : wp (create_checkout environ imp payload) w (λ r w',
    (r, w') = mock_checkout_result environ payload docs [] w)).
  { unfold create_checkout. cbn zeta.
    repeat wp_step; amount_cases; try congruence; simplify_eq.
    unfold mock_checkout_result, paid_purchase, pending_purchase,
      checkout_email_lines, email_subject, checkout_success_url.
    rewrite alter_insert_eq, app_nil_r. clock_norm. reflexivity. }
  unfold wp in Hwp. rewrite <- Hwp. apply surjective_pairing.
Qed.

(** X5.  In stripe mode, when [import stripe] or the session creation
    raises [e], the checkout ends exactly as a mock checkout does, after
    one more console line, [Stripe error:] followed by [str(e)]. *)
Theorem create_checkout_stripe_failure_result environ imp payload docs e w :
  PAYMENT_PROVIDER environ = stripe →
  amount payload ∈ topup_options (PricingConfig_default environ) →
  db w = Some docs →
  docs !! next_oid (oid_counter w) = None →
  let pid := ObjectId_str (next_oid (oid_counter w)) in
  (imp = Raises e ∨
   ∃ st, imp = Returns st ∧
     Session_create st
       (checkout_session_params environ (PricingConfig_default environ) payload pid
          (checkout_success_url environ pid) (checkout_cancel_url environ pid))
       = Raises e) →
  create_checkout environ imp payload w =
    mock_checkout_result environ payload docs ["Stripe error: " +:+ exn_str e] w.
Proof.
  intros Hmode Ha Hdb Hfree pid Hfail.
  assert (Hwp : wp (create_checkout environ imp payload) w (λ r w',
    (r, w') =
    mock_checkout_result environ payload docs ["Stripe error: " +:+ exn_str e] w)).
  { unfold create_checkout. cbn zeta.
    unfold checkout_success_url, checkout_cancel_url, pid in Hfail.
    repeat wp_step; amount_cases; try congruence; simplify_eq.
    all: destruct Hfail as [Himp | (st & Himp & Hsess)]; simplify_eq.
    all: try (rewrite Hsess in *; simplify_eq).
    all: unfold mock_checkout_result, paid_purchase, pending_purchase,
      checkout_email_lines, email_subject, checkout_success_url.
    all: rewrite alter_insert_eq; clock_norm; reflexivity. }
  unfold wp in Hwp. rewrite <- Hwp. apply surjective_pairing.
Qed.

(** X6.  [create_checkout] never changes or removes a document that was
    already stored, whatever the payload, the mode and the payment service
    do. *)
Theorem create_checkout_keeps_existing environ imp payload w o rec :
  find_document w o = Some rec →
  find_document (create_checkout environ imp payload w).2 o = Some rec.
Proof.
  intros Hrec.
  change (wp (create_checkout environ imp payload) w
            (λ _ w', find_document w' o = Some rec)).
  unfold create_checkout. cbn zeta.
  repeat wp_step; simplify_eq.
  all: unfold find_document in *; cbn [db].
  all: repeat match goal with
       | H : db _ = _ |- _ => rewrite H in *
       end; simplify_eq; try done.
  all: assert (next_oid (oid_counter w) ≠ o) by congruence.
  all: by rewrite ?lookup_alter_ne, lookup_insert_ne by done.
Qed.

Lemma create_checkout_new_record_run environ imp payload w o rec :
  find_document w o = None →
  find_document (create_checkout environ imp payload w).2 o = Some rec →
  o = next_oid (oid_counter w) ∧
  amount payload ∈ [10; 20; 30; 50] ∧
  same_purchase_data (pending_purchase environ payload (clock w)) rec ∧
  (payment_status rec = pending ∧ payment_reference rec = None ∨
   payment_status rec = paid ∧ payment_reference rec = Some "mock-ok").
Proof.
  intros Hnew.
  change (wp (create_checkout environ imp payload) w
    (λ _ w', find_document w' o = Some rec →
       o = next_oid (oid_counter w) ∧
       amount payload ∈ [10; 20; 30; 50] ∧
       same_purchase_data (pending_purchase environ payload (clock w)) rec ∧
       (payment_status rec = pending ∧ payment_reference rec = None ∨
        payment_status rec = paid ∧ payment_reference rec = Some "mock-ok"))).
  unfold create_checkout. cbn zeta.
  repeat wp_step; simplify_eq.
  all: unfold find_document in *; cbn [db].
  all: repeat match goal with
       | H : db _ = _ |- _ => rewrite H in *
       end; simplify_eq; try congruence.
  all: rewrite ?alter_insert_eq, lookup_insert.
  all: destruct (decide (next_oid _ = o)); [| intros; congruence].
  all: intros ?; simplify_eq.
  all: apply negb_false_iff, bool_decide_eq_true in Heqb.
  all: split_and!; try done; cbn; eauto.
Qed.

(** X7.  A document added by [create_checkout] sits under the next
    identifier, carries the payload's name, e-mail, phone, amount and
    delivery method, an amount among 10, 20, 30, 50, card price 5, their
    sum as total and the process-wide provider; it is either pending
    without reference or paid with reference [mock-ok]. *)
Theorem create_checkout_new_record environ imp payload w o rec :
  find_document w o = None →
  find_document (create_checkout environ imp payload w).2 o = Some rec →
  o = next_oid (oid_counter w) ∧
  amount payload ∈ [10; 20; 30; 50] ∧
  same_purchase_data (pending_purchase environ payload (clock w)) rec ∧
  (payment_status rec = pending ∧ payment_reference rec = None ∨
   payment_status rec = paid ∧ payment_reference rec = Some "mock-ok").
Proof. apply create_checkout_new_record_run. Qed.

(** X9.  The line items sent to the payment service charge, in cents, one
    hundred times the total price of the purchase (5 plus the amount),
    each in [eur] with quantity 1; the session is created for the payer's
    e-mail with the configured secret key. *)
Theorem checkout_session_params_charge environ payload pid success cancel :
  let params := checkout_session_params environ (PricingConfig_default environ)
                  payload pid success cancel in
  line_items_total (sc_line_items params) =
    100 * total_price (pending_purchase environ payload 0) ∧
  Forall (λ li, li_currency li = "eur" ∧ li_quantity li = 1) (sc_line_items params) ∧
  sc_customer_email params = email payload ∧
  sc_api_key params = STRIPE_SECRET_KEY environ.
Proof.
  cbn. split_and!; try done; [lia |]. repeat constructor.
Qed.

(** ** Confirmation: closed forms *)

Lemma confirm_paid_session_run environ st sid qpid sess pid o docs w :
  PAYMENT_PROVIDER environ = stripe →
  sid ≠ "" →
  Session_retrieve st (STRIPE_SECRET_KEY environ) sid = Returns sess →
  session_payment_status sess = "paid" →
  confirm_pid sess qpid = Some pid →
  pid ≠ "" →
  ObjectId pid = Returns o →
  db w = Some docs →
  confirm environ (Returns st) (Some sid) qpid w =
    (Returns {| status := "ok"; confirm_purchase_id := pid |},
     {| db := Some (alter (apply_set {| set_payment_status := paid;
                                        set_updated_at := clock w;
                                        set_payment_reference := sid |}) o docs);
        oid_counter := oid_counter w;
        clock := clock w + 1;
        console := console w ++ confirm_email_lines sess pid |}).
Proof.
  intros Hmode Hsid Hsess Hpaid Hpid Hne Hoid Hdb.
  assert (Hwp : wp (confirm environ (Returns st) (Some sid) qpid) w (λ r w',
    (r, w') =
    (Returns {| status := "ok"; confirm_purchase_id := pid |},
     {| db := Some (alter (apply_set {| set_payment_status := paid;
                                        set_updated_at := clock w;
                                        set_payment_reference := sid |}) o docs);
        oid_counter := oid_counter w;
        clock := clock w + 1;
        console := console w ++ confirm_email_lines sess pid |}))).
  { unfold confirm. cbn zeta.
    destruct (decide _) as [_ | n]; [| done].
    rewrite (truthy_Some sid) by done. cbn [negb default from_option id].
    apply wp_try_except. do 3 wp_step. rewrite Hsess. wp_step.
    fold (confirm_pid sess qpid) (confirm_email sess) (confirm_name sess).
    rewrite Hpid, Hpaid, (truthy_Some pid), bool_decide_true by done.
    cbn [andb default from_option id].
    wp_step. wp_step; [congruence |]. wp_step. rewrite Hoid.
    unfold confirm_email_lines, email_subject.
    repeat wp_step; simplify_eq; try done.
    by rewrite app_nil_r. }
  unfold wp in Hwp. rewrite <- Hwp. apply surjective_pairing.
Qed.

(** X11.  In stripe mode, when the retrieved session is not paid, or no
    purchase identifier can be read, [confirm] changes nothing and raises
    status 400 whose detail is the confirmation-error prefix followed by
    [400: Pago no confirmado]. *)
Theorem confirm_not_confirmed environ st sid qpid sess w :
  PAYMENT_PROVIDER environ = stripe →
  sid ≠ "" →
  Session_retrieve st (STRIPE_SECRET_KEY environ) sid = Returns sess →
  session_payment_status sess ≠ "paid" ∨ truthy (confirm_pid sess qpid) = false →
  confirm environ (Returns st) (Some sid) qpid w =
    (Raises (HTTPException 400 "Error confirmando el pago: 400: Pago no confirmado"), w).
Proof.
  intros Hmode Hsid Hsess Hnot.
  unfold confirm. cbn zeta.
  destruct (decide _) as [_ | n]; [| done].
  rewrite (truthy_Some sid) by done. cbn [negb default from_option id].
  unfold try_except, bind, lift. rewrite Hsess.
  fold (confirm_pid sess qpid).
  assert (bool_decide (session_payment_status sess = "paid") &&
          truthy (confirm_pid sess qpid) = false) as ->; [| done].
  destruct Hnot as [Hs | Hp].
  - by rewrite bool_decide_false.
  - rewrite Hp. apply andb_false_r.
Qed.

(** X12.  In stripe mode, when [import stripe] or the retrieval of the
    session raises [e], [confirm] changes nothing and raises status 400
    with detail [Error confirmando el pago: ] followed by [str(e)]. *)
Theorem confirm_stripe_failure environ imp sid qpid e w :
  PAYMENT_PROVIDER environ = stripe →
  sid ≠ "" →
  (imp = Raises e ∨
   ∃ st, imp = Returns st ∧
     Session_retrieve st (STRIPE_SECRET_KEY environ) sid = Raises e) →
  confirm environ imp (Some sid) qpid w =
    (Raises (HTTPException 400 ("Error confirmando el pago: " +:+ exn_str e)), w).
Proof.
  intros Hmode Hsid Hfail.
  unfold confirm. cbn zeta.
  destruct (decide _) as [_ | n]; [| done].
  rewrite (truthy_Some sid) by done. cbn [negb default from_option id].
  unfold try_except, bind, lift.
  destruct Hfail as [-> | (st & -> & Hsess)]; [done |]. by rewrite Hsess.
Qed.

(** X14.  Whatever its inputs and the behaviour of the payment service and
    the database, [confirm] raises nothing but [HTTPException] with status
    400. *)
Theorem confirm_raises_only_400 environ imp session_id purchase_id w e :
  (confirm environ imp session_id purchase_id w).1 = Raises e →
  ∃ detail, e = HTTPException 400 detail.
Proof.
  change (wp (confirm environ imp session_id purchase_id) w
            (λ r _, r = Raises e → ∃ detail, e = HTTPException 400 detail)).
  unfold confirm. cbn zeta.
  repeat wp_step; intros ?; simplify_eq; eauto.
Qed.

(** X15.  In stripe mode, when the retrieved session has non-empty
    metadata, the [purchase_id] of the query has no influence on
    [confirm]: answer and world are the same for any two values. *)
Theorem confirm_ignores_query_when_metadata environ st sid p1 p2 sess w :
  PAYMENT_PROVIDER environ = stripe →
  Session_retrieve st (STRIPE_SECRET_KEY environ) sid = Returns sess →
  dict_truthy (metadata sess) = true →
  confirm environ (Returns st) (Some sid) p1 w =
  confirm environ (Returns st) (Some sid) p2 w.
Proof.
  intros Hmode Hsess Hmeta. unfold confirm. cbn zeta.
  destruct (decide _) as [_ | n]; [| done].
  destruct (truthy (Some sid)) eqn:Hsid; [| done].
  cbn [negb default from_option id].
  unfold try_except, bind, lift. by rewrite Hsess, Hmeta.
Qed.

(** X16.  [confirm] never adds or removes a document, and in every stored
    document it leaves the customer data, the prices, the provider, the
    delivery method and the creation time as they were. *)
Theorem confirm_keeps_documents environ imp session_id purchase_id w o :
  let w' := (confirm environ imp session_id purchase_id w).2 in
  (find_document w o = None → find_document w' o = None) ∧
  (∀ rec, find_document w o = Some rec →
     ∃ rec', find_document w' o = Some rec' ∧ same_purchase_data rec rec').
Proof.
  intros w'.
  pose proof (confirm_store_effect_holds environ imp session_id purchase_id w) as Heff.
  fold w' in Heff. clearbody w'. unfold find_document.
  destruct Heff as [-> | (docs & o' & u & -> & _ & ->)].
  - split; [done |]. intros rec Hrec. exists rec. by repeat split.
  - split.
    + by rewrite lookup_alter_None.
    + intros rec Hrec. rewrite lookup_alter.
      case_decide; simplify_eq; rewrite ?Hrec; eexists; split; try done;
        by repeat split.
Qed.

(** X17.  In stripe mode, for a paid session whose identifier is a well-
    formed ObjectId that no document has, [confirm] still answers [ok] and
    logs the e-mail, and the collection is left unchanged: the update
    matches nothing and nothing is inserted. *)
Theorem confirm_unknown_purchase environ st sid qpid sess pid o docs w :
  PAYMENT_PROVIDER environ = stripe →
  sid ≠ "" →
  Session_retrieve st (STRIPE_SECRET_KEY environ) sid = Returns sess →
  session_payment_status sess = "paid" →
  confirm_pid sess qpid = Some pid →
  pid ≠ "" →
  ObjectId pid = Returns o →
  db w = Some docs →
  docs !! o = None →
  let out := confirm environ (Returns st) (Some sid) qpid w in
  out.1 = Returns {| status := "ok"; confirm_purchase_id := pid |} ∧
  db out.2 = db w ∧
  console out.2 = (console w ++ confirm_email_lines sess pid)%list.
Proof.
  intros Hmode Hsid Hsess Hpaid Hpid Hne Hoid Hdb Hnone out. unfold out.
  rewrite (confirm_paid_session_run environ st sid qpid sess pid o docs w) by done.
  cbn. split_and!; try done. rewrite Hdb. f_equal.
  apply alter_id. intros x Hx. congruence.
Qed.


(** ** The diagnostic endpoint *)

(** X20.  [GET /test] always answers and changes nothing; the backend is
    reported running, [database_url] and [database_name] say only whether
    the two environment variables are set and non-empty (the name of the
    database object is never reported), the connection is reported exactly
    when the database object exists, and at most ten collections are
    listed. *)
Theorem test_database_always_answers denv dbo w :
  ∃ r,
    test_database denv dbo w = (Returns r, w) ∧
    backend r = "✅ Running" ∧
    database_url r = Some (set_or_not (DATABASE_URL denv)) ∧
    database_name r = Some (set_or_not (DATABASE_NAME denv)) ∧
    (connection_status r = "Connected" ↔ db w ≠ None) ∧
    (length (collections r) ≤ 10)%nat.
Proof.
  unfold test_database. eexists. split; [reflexivity |].
  destruct (db w) as [docs |]; [destruct (list_collection_names dbo) as [cs | e] |];
    cbn; split_and!; try done; try lia.
  rewrite length_take. lia.
Qed.

(** ** Witnesses *)

Lemma create_checkout_stripe_session_witness :
  create_checkout env_stripe_ex (Returns (stripe_ok_ex None None)) payload_ex world_ex =
    (Returns {| provider := stripe;
                response_url := Some "https://checkout.example/cs_test_2";
                message := None;
                purchase_id := Some "00000000000000000000001a" |},
     {| db := Some (<[oid12 26 := pending_purchase env_stripe_ex payload_ex 1000]>
                      {[ oid12 7 := purchase_ex ]});
        oid_counter := 27; clock := 1002; console := [] |}).
Proof.
  apply (create_checkout_stripe_session env_stripe_ex (stripe_ok_ex None None)
           payload_ex session_created_ex {[ oid12 7 := purchase_ex ]} world_ex);
    try reflexivity.
  cbn. set_unfold. lia.
Defined.

Lemma create_checkout_stripe_failure_result_witness :
  create_checkout env_stripe_ex
    (Raises (PyError "ModuleNotFoundError" "No module named 'stripe'")) payload_ex world_ex =
    mock_checkout_result env_stripe_ex payload_ex {[ oid12 7 := purchase_ex ]}
      ["Stripe error: No module named 'stripe'"] world_ex.
Proof.
  apply (create_checkout_stripe_failure_result env_stripe_ex _ payload_ex
           {[ oid12 7 := purchase_ex ]}
           (PyError "ModuleNotFoundError" "No module named 'stripe'") world_ex);
    try reflexivity.
  - cbn. set_unfold. lia.
  - left. reflexivity.
Defined.

Lemma create_checkout_keeps_existing_witness :
  find_document
    (create_checkout env_mock_ex (Returns (stripe_ex "paid")) payload_ex world_ex).2 (oid12 7)
    = Some purchase_ex.
Proof. apply create_checkout_keeps_existing. reflexivity. Defined.

Lemma create_checkout_new_record_witness :
  same_purchase_data (pending_purchase env_mock_ex payload_ex 1000)
    (paid_purchase env_mock_ex payload_ex 1000).
Proof.
  apply (create_checkout_new_record env_mock_ex (Returns (stripe_ex "paid"))
           payload_ex world_ex (oid12 26) (paid_purchase env_mock_ex payload_ex 1000));
    reflexivity.
Defined.

Lemma confirm_not_confirmed_witness :
  confirm env_stripe_ex (Returns (stripe_ok_ex None None)) (Some "cs_test_2") None world_ex =
    (Raises (HTTPException 400 "Error confirmando el pago: 400: Pago no confirmado"),
     world_ex).
Proof.
  apply (confirm_not_confirmed env_stripe_ex (stripe_ok_ex None None) "cs_test_2" None
           (paid_session_ex None None) world_ex);
    try reflexivity; try discriminate.
  right. reflexivity.
Defined.

Lemma confirm_stripe_failure_witness :
  confirm env_stripe_ex (Raises (PyError "ModuleNotFoundError" "No module named 'stripe'"))
    (Some "cs_test_2") None world_ex =
    (Raises (HTTPException 400 "Error confirmando el pago: No module named 'stripe'"),
     world_ex).
Proof.
  apply (confirm_stripe_failure env_stripe_ex _ "cs_test_2" None
           (PyError "ModuleNotFoundError" "No module named 'stripe'") world_ex);
    try reflexivity; try discriminate.
  left. reflexivity.
Defined.

Lemma confirm_raises_only_400_witness :
  ∃ detail, HTTPException 400 "Falta purchase_id" = HTTPException 400 detail.
Proof.
  apply (confirm_raises_only_400 env_mock_ex (Returns (stripe_ex "paid"))
           (Some "cs_test_1") None world_ex).
  reflexivity.
Defined.

Lemma confirm_ignores_query_when_metadata_witness :
  confirm env_stripe_ex (Returns (stripe_ok_ex (Some metadata_ex) None))
    (Some "cs_test_2") None world_ex =
  confirm env_stripe_ex (Returns (stripe_ok_ex (Some metadata_ex) None))
    (Some "cs_test_2") (Some "ffffffffffffffffffffffff") world_ex.
Proof.
  apply (confirm_ignores_query_when_metadata env_stripe_ex
           (stripe_ok_ex (Some metadata_ex) None) "cs_test_2" None
           (Some "ffffffffffffffffffffffff") (paid_session_ex (Some metadata_ex) None));
    reflexivity.
Defined.

Lemma confirm_unknown_purchase_witness :
  let out := confirm env_stripe_ex (Returns (stripe_ok_ex None None)) (Some "cs_test_2")
               (Some "ffffffffffffffffffffffff") world_ex in
  out.1 = Returns {| status := "ok"; confirm_purchase_id := "ffffffffffffffffffffffff" |} ∧
  db out.2 = db world_ex ∧
  console out.2 = console world_ex.
Proof.
  apply (confirm_unknown_purchase env_stripe_ex (stripe_ok_ex None None) "cs_test_2"
           (Some "ffffffffffffffffffffffff") (paid_session_ex None None)
           "ffffffffffffffffffffffff" (oid12 (2 ^ 96 - 1)) {[ oid12 7 := purchase_ex ]} world_ex);
    try reflexivity; discriminate.
Defined.


(** ** The two halves of checkout creation *)









(** ** Confirmation: the record that is marked paid *)

(** C10.  In stripe mode, when the retrieved session is paid and carries
    no metadata, [confirm] takes the [purchase_id] of the query as the
    record to update: for every such identifier that parses as an ObjectId
    the answer is [ok] with that identifier, the document stored under it
    gets [payment_status = paid], the session identifier as
    [payment_reference] and the current time as [updated_at], its other
    fields and all other documents stay as they were.  Nothing relates the
    identifier to the session. *)
Theorem confirm_no_metadata_uses_query_purchase_id
    environ st sid p sess o docs w :
  PAYMENT_PROVIDER environ = stripe →
  sid ≠ "" →
  Session_retrieve st (STRIPE_SECRET_KEY environ) sid = Returns sess →
  session_payment_status sess = "paid" →
  dict_truthy (metadata sess) = false →
  p ≠ "" →
  ObjectId p = Returns o →
  db w = Some docs →
  let out := confirm environ (Returns st) (Some sid) (Some p) w in
  out.1 = Returns {| status := "ok"; confirm_purchase_id := p |} ∧
  (∀ rec, docs !! o = Some rec →
     ∃ rec', find_document out.2 o = Some rec' ∧
       payment_status rec' = paid ∧
       payment_reference rec' = Some sid ∧
       updated_at rec' = Some (clock w) ∧
       same_purchase_data rec rec') ∧
  (∀ o', o' ≠ o → find_document out.2 o' = docs !! o').
Proof.
  intros Hmode Hsid Hsess Hpaid Hmeta Hp Hoid Hdb out. unfold out.
  rewrite (confirm_paid_session_run environ st sid (Some p) sess p o docs w);
    try done.
  - unfold find_document. cbn [fst snd db]. split_and!; [done | |].
    + intros rec Hrec. rewrite lookup_alter_eq, Hrec. eexists. split; [reflexivity |].
      by repeat split.
    + intros o' Hne. by rewrite lookup_alter_ne.
  - unfold confirm_pid. by rewrite Hmeta.
Qed.

Lemma confirm_no_metadata_uses_query_purchase_id_witness :
  let out := confirm env_stripe_ex (Returns (stripe_ex "paid")) (Some "cs_test_1")
               (Some "000000000000000000000007") world_ex in
  out.1 = Returns {| status := "ok"; confirm_purchase_id := "000000000000000000000007" |} ∧
  ∃ rec', find_document out.2 (oid12 7) = Some rec' ∧
    payment_status rec' = paid ∧
    payment_reference rec' = Some "cs_test_1" ∧
    updated_at rec' = Some 1000 ∧
    same_purchase_data purchase_ex rec'.
Proof.
  destruct (confirm_no_metadata_uses_query_purchase_id env_stripe_ex (stripe_ex "paid")
              "cs_test_1" "000000000000000000000007" (session_ex "paid") (oid12 7)
              {[ oid12 7 := purchase_ex ]} world_ex) as (Hr & Hrec & _);
    try reflexivity; try discriminate.
  split; [exact Hr |]. apply Hrec. reflexivity.
Defined.

(** X10.  In stripe mode, for a paid session whose purchase identifier
    (from the metadata when there is any, from the query otherwise) parses
    as an ObjectId, [confirm] answers [ok] with that identifier; the
    document under it gets [payment_status = paid], the session identifier
    as [payment_reference] and the current time as [updated_at], nothing
    else in the collection changes, the clock moves by one reading, and
    one e-mail is logged exactly when the session has a non-empty customer
    e-mail. *)
Theorem confirm_paid_session environ st sid qpid sess pid o docs w :
  PAYMENT_PROVIDER environ = stripe →
  sid ≠ "" →
  Session_retrieve st (STRIPE_SECRET_KEY environ) sid = Returns sess →
  session_payment_status sess = "paid" →
  confirm_pid sess qpid = Some pid →
  pid ≠ "" →
  ObjectId pid = Returns o →
  db w = Some docs →
  let out := confirm environ (Returns st) (Some sid) qpid w in
  out.1 = Returns {| status := "ok"; confirm_purchase_id := pid |} ∧
  (∀ rec, docs !! o = Some rec →
     ∃ rec', find_document out.2 o = Some rec' ∧
       payment_status rec' = paid ∧
       payment_reference rec' = Some sid ∧
       updated_at rec' = Some (clock w) ∧
       same_purchase_data rec rec') ∧
  (∀ o', o' ≠ o → find_document out.2 o' = docs !! o') ∧
  oid_counter out.2 = oid_counter w ∧
  clock out.2 = clock w + 1 ∧
  console out.2 = (console w ++ confirm_email_lines sess pid)%list.
Proof.
  intros Hmode Hsid Hsess Hpaid Hpid Hne Hoid Hdb out. unfold out.
  rewrite (confirm_paid_session_run environ st sid qpid sess pid o docs w) by done.
  unfold find_document. cbn [fst snd db oid_counter clock console].
  split_and!; try done.
  - intros rec Hrec. rewrite lookup_alter_eq, Hrec. eexists. split; [reflexivity |].
    by repeat split.
  - intros o' Hne'. by rewrite lookup_alter_ne.
Qed.

Lemma confirm_paid_session_witness :
  let out := confirm env_stripe_ex
               (Returns (stripe_ok_ex (Some metadata_ex) (Some "luis@example.com")))
               (Some "cs_test_2") None world_ex in
  out.1 = Returns {| status := "ok"; confirm_purchase_id := "000000000000000000000007" |} ∧
  (∃ rec', find_document out.2 (oid12 7) = Some rec' ∧
     payment_status rec' = paid ∧
     payment_reference rec' = Some "cs_test_2" ∧
     updated_at rec' = Some 1000 ∧
     same_purchase_data purchase_ex rec') ∧
  console out.2 =
    confirmation_email_lines "luis@example.com" email_subject
      (confirm_email_content (Some "Luis") "000000000000000000000007").
Proof.
  destruct (confirm_paid_session env_stripe_ex
             (stripe_ok_ex (Some metadata_ex) (Some "luis@example.com")) "cs_test_2" None
             (paid_session_ex (Some metadata_ex) (Some "luis@example.com"))
             "000000000000000000000007" (oid12 7) {[ oid12 7 := purchase_ex ]} world_ex)
    as (Hr & Hrec & _ & _ & _ & Hlog); try reflexivity; try discriminate.
  split; [exact Hr |]. split; [apply Hrec; reflexivity | exact Hlog].
Defined.

(** X18.  Confirming the same paid session twice gives the same answer
    twice; after each confirmation the document has [payment_status =
    paid] and the session identifier as [payment_reference], only its
    [updated_at] moves, and the confirmation e-mail is logged a second
    time. *)
Theorem confirm_twice environ st sid qpid sess pid o docs rec w :
  PAYMENT_PROVIDER environ = stripe →
  sid ≠ "" →
  Session_retrieve st (STRIPE_SECRET_KEY environ) sid = Returns sess →
  session_payment_status sess = "paid" →
  confirm_pid sess qpid = Some pid →
  pid ≠ "" →
  ObjectId pid = Returns o →
  db w = Some docs →
  docs !! o = Some rec →
  let first := confirm environ (Returns st) (Some sid) qpid w in
  let second := confirm environ (Returns st) (Some sid) qpid first.2 in
  second.1 = first.1 ∧
  (∃ rec1 rec2,
     find_document first.2 o = Some rec1 ∧
     find_document second.2 o = Some rec2 ∧
     payment_status rec1 = paid ∧ payment_status rec2 = paid ∧
     payment_reference rec1 = Some sid ∧ payment_reference rec2 = Some sid ∧
     updated_at rec1 = Some (clock w) ∧ updated_at rec2 = Some (clock w + 1) ∧
     same_purchase_data rec rec1 ∧ same_purchase_data rec rec2) ∧
  console second.2 =
    (console w ++ confirm_email_lines sess pid ++ confirm_email_lines sess pid)%list.
Proof.
  intros Hmode Hsid Hsess Hpaid Hpid Hne Hoid Hdb Hrec first second.
  unfold second, first.
  rewrite (confirm_paid_session_run environ st sid qpid sess pid o docs w) by done.
  cbn [fst snd].
  erewrite (confirm_paid_session_run environ st sid qpid sess pid o) by done.
  unfold find_document. cbn [fst snd db console clock].
  rewrite !lookup_alter_eq, Hrec, app_assoc. cbn.
  split_and!; try done. eexists _, _. by repeat split.
Qed.

Lemma confirm_twice_witness :
  let first := confirm env_stripe_ex
                 (Returns (stripe_ok_ex (Some metadata_ex) (Some "luis@example.com")))
                 (Some "cs_test_2") None world_ex in
  let second := confirm env_stripe_ex
                  (Returns (stripe_ok_ex (Some metadata_ex) (Some "luis@example.com")))
                  (Some "cs_test_2") None first.2 in
  second.1 = first.1 ∧
  (∃ rec1 rec2,
     find_document first.2 (oid12 7) = Some rec1 ∧
     find_document second.2 (oid12 7) = Some rec2 ∧
     payment_status rec1 = paid ∧ payment_status rec2 = paid ∧
     payment_reference rec1 = Some "cs_test_2" ∧
     payment_reference rec2 = Some "cs_test_2" ∧
     updated_at rec1 = Some 1000 ∧ updated_at rec2 = Some 1001 ∧
     same_purchase_data purchase_ex rec1 ∧ same_purchase_data purchase_ex rec2) ∧
  length (console second.2) = 10%nat.
Proof.
  destruct (confirm_twice env_stripe_ex
             (stripe_ok_ex (Some metadata_ex) (Some "luis@example.com")) "cs_test_2" None
             (paid_session_ex (Some metadata_ex) (Some "luis@example.com"))
             "000000000000000000000007" (oid12 7) {[ oid12 7 := purchase_ex ]}
             purchase_ex world_ex)
    as (Hsame & Hrecs & Hlog); try reflexivity; try discriminate.
  split; [exact Hsame |]. split; [exact Hrecs |]. cbn zeta. rewrite Hlog. reflexivity.
Defined.

(** ** Checkout creation: the mock branch and the validation *)

(** X4.  In mock mode a valid checkout that the database accepts answers
    with provider [mock], the success URL built from [FRONTEND_URL]
    (default [http://localhost:3000]) and the new identifier, and the
    message of the simulated payment; the new record is stored with
    [payment_status = paid], [payment_reference = "mock-ok"] and the
    payload's data, the other documents are untouched, and one
    confirmation e-mail to the payer is logged. *)
Theorem create_checkout_mock_result environ imp payload docs w :
  PAYMENT_PROVIDER environ = mock →
  amount payload ∈ topup_options (PricingConfig_default environ) →
  db w = Some docs →
  docs !! next_oid (oid_counter w) = None →
  let out := create_checkout environ imp payload w in
  let pid := ObjectId_str (next_oid (oid_counter w)) in
  out.1 = Returns {| provider := mock;
                     response_url := Some (checkout_success_url environ pid);
                     message := Some "Pago simulado con éxito";
                     purchase_id := Some pid |} ∧
  (∃ rec, find_document out.2 (next_oid (oid_counter w)) = Some rec ∧
     payment_status rec = paid ∧
     payment_reference rec = Some "mock-ok" ∧
     updated_at rec = Some (clock w + 2) ∧
     same_purchase_data (pending_purchase environ payload (clock w)) rec) ∧
  (∀ o, o ≠ next_oid (oid_counter w) → find_document out.2 o = docs !! o) ∧
  console out.2 = (console w ++ checkout_email_lines payload pid)%list.
Proof.
  intros Hmode Ha Hdb Hfree out pid. unfold out.
  rewrite (create_checkout_mock_result_run environ imp payload docs w) by done.
  unfold mock_checkout_result, find_document. cbn [fst snd db console].
  split_and!; try done.
  - rewrite lookup_insert_eq. eexists. split; [reflexivity |]. by repeat split.
  - intros o Hne. by rewrite lookup_insert_ne.
  - by rewrite app_nil_r.
Qed.

Lemma create_checkout_mock_result_witness :
  let out := create_checkout env_mock_ex (Returns (stripe_ex "paid")) payload_ex world_ex in
  out.1 = Returns {| provider := mock;
                     response_url :=
                       Some "http://localhost:3000/exito?purchase_id=00000000000000000000001a";
                     message := Some "Pago simulado con éxito";
                     purchase_id := Some "00000000000000000000001a" |} ∧
  ∃ rec, find_document out.2 (oid12 26) = Some rec ∧
    payment_status rec = paid ∧
    payment_reference rec = Some "mock-ok" ∧
    updated_at rec = Some 1002 ∧
    same_purchase_data (pending_purchase env_mock_ex payload_ex 1000) rec.
Proof.
  destruct (create_checkout_mock_result env_mock_ex (Returns (stripe_ex "paid")) payload_ex
              {[ oid12 7 := purchase_ex ]} world_ex) as (Hr & Hrec & _);
    try reflexivity.
  - cbn. set_unfold. lia.
  - split; [exact Hr | exact Hrec].
Defined.

(** X8.  [create_checkout] never raises the validation error of
    [PrepaidCardPurchase]: the record it builds always meets the three
    [ge=0] constraints, and so does every record it adds to the
    collection. *)
Theorem create_checkout_record_valid environ imp payload w :
  let out := create_checkout environ imp payload w in
  out.1 ≠ Raises ValidationError ∧
  (∀ o rec, find_document w o = None → find_document out.2 o = Some rec →
     0 ≤ amount_selected rec ∧ 0 ≤ card_price rec ∧ 0 ≤ total_price rec).
Proof.
  cbn zeta. split.
  - change (wp (create_checkout environ imp payload) w
              (λ r _, r ≠ Raises ValidationError)).
    unfold create_checkout. cbn zeta.
    repeat wp_step; simplify_eq; try done.
    apply negb_false_iff, bool_decide_eq_true in Heqb.
    rewrite purchase_valid in Heqb0 by done. done.
  - intros o rec Hnew Hrec.
    destruct (create_checkout_new_record_run environ imp payload w o rec Hnew Hrec)
      as (_ & Ha & Hdata & _).
    destruct Hdata as (_ & _ & _ & Hamt & Hcard & Htot & _).
    cbn in Hamt, Hcard, Htot. rewrite Hamt, Hcard, Htot.
    assert (0 ≤ amount payload) by (set_unfold; lia). lia.
Qed.

(** ** Confirmation: an identifier that is no ObjectId *)

(** X13.  In stripe mode, for a paid session whose purchase identifier
    [ObjectId] refuses (not 24 characters, or not hexadecimal bytes),
    [confirm] changes nothing, not even the clock, and raises status 400
    with a detail that starts with [Error confirmando el pago: ]. *)
Theorem confirm_invalid_purchase_id environ st sid qpid sess pid e docs w :
  PAYMENT_PROVIDER environ = stripe →
  sid ≠ "" →
  Session_retrieve st (STRIPE_SECRET_KEY environ) sid = Returns sess →
  session_payment_status sess = "paid" →
  confirm_pid sess qpid = Some pid →
  pid ≠ "" →
  ObjectId pid = Raises e →
  db w = Some docs →
  ∃ message,
    confirm environ (Returns st) (Some sid) qpid w =
      (Raises (HTTPException 400 ("Error confirmando el pago: " +:+ message)), w).
Proof.
  intros Hmode Hsid Hsess Hpaid Hpid Hne Hoid Hdb. exists (exn_str e).
  unfold confirm. cbn zeta.
  destruct (decide _) as [_ | n]; [| done].
  rewrite (truthy_Some sid) by done. cbn [negb default from_option id].
  unfold try_except, bind, lift, db_getitem. rewrite Hsess.
  fold (confirm_pid sess qpid).
  rewrite Hpid, Hpaid, (truthy_Some pid), bool_decide_true by done.
  cbn [andb default from_option id]. by rewrite Hdb, Hoid.
Qed.

Lemma confirm_invalid_purchase_id_witness :
  ∃ message,
    confirm env_stripe_ex (Returns (stripe_ok_ex None None)) (Some "cs_test_2")
      (Some "abc") world_ex =
      (Raises (HTTPException 400 ("Error confirmando el pago: " +:+ message)), world_ex).
Proof.
  apply (confirm_invalid_purchase_id env_stripe_ex (stripe_ok_ex None None) "cs_test_2"
           (Some "abc") (paid_session_ex None None) "abc" (InvalidId "abc")
           {[ oid12 7 := purchase_ex ]} world_ex);
    try reflexivity; discriminate.
Defined.

(** ** The diagnostic endpoint: the listing *)

Lemma str_prefix_len (n : nat) (s : string) : (str_len (str_prefix n s) ≤ n)%nat.
Proof.
  revert n. induction s as [| c s IH]; intros n; cbn [str_prefix str_len]; [lia |].
  destruct (is_continuation c) eqn:Hc.
  - cbn [str_len]. rewrite Hc. apply IH.
  - destruct n as [| n]; cbn [str_len]; [lia |]. rewrite Hc.
    specialize (IH n). lia.
Qed.

(** X21.  [GET /test] lists the first ten collection names when the
    listing succeeds; when the listing raises, the error is reported in
    the [database] field, cut to its first fifty characters (code points
    of the UTF-8 text), with no collections; without a database object it
    reports that the database is not initialised. *)
Theorem test_database_listing denv dbo w r w' :
  test_database denv dbo w = (Returns r, w') →
  match db w, list_collection_names dbo with
  | Some _, Returns cs =>
      collections r = take 10 cs ∧ database r = "✅ Connected & Working"
  | Some _, Raises e =>
      collections r = [] ∧ connection_status r = "Connected" ∧
      database r = "⚠️ Connected but Error: " +:+ str_prefix 50 (exn_str e) ∧
      (str_len (str_prefix 50 (exn_str e)) ≤ 50)%nat
  | None, _ =>
      collections r = [] ∧ connection_status r = "Not Connected" ∧
      database r = "⚠️ Available but not initialized"
  end.
Proof.
  unfold test_database. intros Heq.
  destruct (db w) as [docs |]; [destruct (list_collection_names dbo) as [cs | e] |];
    simplify_eq; try done.
  split_and!; try done. apply str_prefix_len.
Qed.

Lemma test_database_listing_witness :
  ∃ r,
    test_database denv_ex dbo_fail_ex world_ex = (Returns r, world_ex) ∧
    collections r = [] ∧ connection_status r = "Connected" ∧
    database r =
      "⚠️ Connected but Error: conexión rechazada: no se pudo alcanzar el servido".
Proof.
  eexists. split; [reflexivity |].
  destruct (test_database_listing denv_ex dbo_fail_ex world_ex _ _ eq_refl)
    as (Hc & Hs & Hd & _).
  split; [exact Hc |]. split; [exact Hs | exact Hd].
Defined.
